(** * Shoe style matcher: the [App] component of [src/index.tsx]

    A shallow embedding of the logic of the [App] component: the part of
    [handleImageAnalysis] that validates the parsed answer of the vision
    model and filters the catalogue, the tag construction of
    [handleProductSubmit], and the state changes of the other handlers
    ([fetchAllProducts], [handleReset], [toggleAddProductForm],
    [handleInputChange], [handleImageChange]).  The markup, the regular
    expression that reads the MIME type and [isAnalysisComplete], which
    compares arbitrary values with [0], are not modelled.

    Modelling choices.
    - Values that come out of [JSON.parse] / [response.json()] are the
      inductive [json]; [undefined] (an absent property) is [None].
    - A JavaScript string is a [string] whose characters are UTF-16 code
      units below 256.  On that range [toLowerCase], [trim], [split(',')],
      [length] and string iteration are one code unit at a time, and are
      defined below as ECMAScript defines them.
    - A thrown exception is the [Throw] outcome of the [result] monad; the
      handler's React state is an explicit record threaded through a small
      state monad with early [return], [try]/[catch] and [finally]. *)

From stdpp Require Import base strings list gmap.
From Stdlib Require Import ZArith Ascii Lia.

Local Open Scope string_scope.
Local Open Scope list_scope.
Local Open Scope nat_scope.
Set Warnings "-register-all".
Set Default Proof Using "Type".

(** ** JavaScript values and built-ins *)

Module Js.

(** The result of [JSON.parse].  A number is only ever tested for truthiness
    and compared with [0] by the handler, so integers stand for the doubles.
    [JObj] lists the own properties of the parsed object; a key is looked up
    from the left. *)
Inductive json : Type :=
  | JNull
  | JBool (b : bool)
  | JNum (n : Z)
  | JStr (s : string)
  | JArr (items : list json)
  | JObj (fields : list (string * json)).

Inductive exn : Type :=
  | TypeError
  | ServiceError.

(** Outcome of evaluating an expression that may throw. *)
Inductive result (A : Type) : Type :=
  | Ok (a : A)
  | Throw (e : exn).
Arguments Ok {A} a.
Arguments Throw {A} e.

#[global] Instance result_ret : MRet result := @Ok.

#[global] Instance result_bind : MBind result := λ A B k m,
  match m with
  | Ok a => k a
  | Throw e => Throw e
  end.

Definition is_ok {A} (m : result A) : bool :=
  match m with Ok _ => true | Throw _ => false end.

(** [ToBoolean]: the falsy JSON values are [null], [false], [0] and [""]. *)
Definition truthy (v : json) : bool :=
  match v with
  | JNull => false
  | JBool b => b
  | JNum n => negb (n =? 0)%Z
  | JStr s => negb (String.eqb s "")
  | JArr _ | JObj _ => true
  end.

(** [!v] where [v] may be [undefined]. *)
Definition not_ (v : option json) : bool :=
  match v with
  | None => true
  | Some v => negb (truthy v)
  end.

Fixpoint lookup_field (k : string) (fields : list (string * json)) : option json :=
  match fields with
  | [] => None
  | (k', v) :: rest => if String.eqb k k' then Some v else lookup_field k rest
  end.

(** [v.k] for one of the keys [colorTags], [isShoe], [mainColors],
    [sideColors]: none of them lives on a prototype, so only an object can
    carry it; reading a property of [null] throws. *)
Definition get (v : json) (k : string) : result (option json) :=
  match v with
  | JNull => Throw TypeError
  | JObj fields => Ok (lookup_field k fields)
  | _ => Ok None
  end.

(** [v.length]. *)
Definition length_of (v : json) : result (option json) :=
  match v with
  | JNull => Throw TypeError
  | JStr s => Ok (Some (JNum (Z.of_nat (String.length s))))
  | JArr items => Ok (Some (JNum (Z.of_nat (length items))))
  | JObj fields => Ok (lookup_field "length" fields)
  | _ => Ok None
  end.

(** [typeof v === 'undefined']. *)
Definition is_undefined (v : option json) : bool :=
  match v with None => true | Some _ => false end.

(** [x === 0]. *)
Definition is_zero (x : option json) : bool :=
  match x with
  | Some (JNum n) => (n =? 0)%Z
  | _ => false
  end.

(** [Array.isArray(v)] where [v] may be [undefined]. *)
Definition isArray (v : option json) : bool :=
  match v with Some (JArr _) => true | _ => false end.

Fixpoint chars (s : string) : list json :=
  match s with
  | EmptyString => []
  | String c rest => JStr (String c EmptyString) :: chars rest
  end.

(** [...v] inside an array literal: arrays and strings are iterable. *)
Definition spread (v : json) : result (list json) :=
  match v with
  | JArr items => Ok items
  | JStr s => Ok (chars s)
  | _ => Throw TypeError
  end.

(** Lower-case mapping of one code unit below 256: [A-Z] and the capital
    letters of the Latin-1 supplement (U+00C0..U+00DE without the
    multiplication sign U+00D7) move up by 32. *)
Definition lower_unit (c : ascii) : ascii :=
  let n := N_of_ascii c in
  if ((65 <=? n) && (n <=? 90) || (192 <=? n) && (n <=? 222) && negb (n =? 215))%N
  then ascii_of_N (n + 32)
  else c.

Fixpoint toLowerCase (s : string) : string :=
  match s with
  | EmptyString => EmptyString
  | String c rest => String (lower_unit c) (toLowerCase rest)
  end.

(** [v.toLowerCase()]: only a string has the method. *)
Definition call_toLowerCase (v : json) : result string :=
  match v with
  | JStr s => Ok (toLowerCase s)
  | _ => Throw TypeError
  end.

(** [xs.map(f)] and [xs.filter(f)] with a callback that may throw: the
    callback runs on the elements from the left and the first exception
    leaves the loop. *)
Fixpoint map_ {A B} (f : A → result B) (xs : list A) : result (list B) :=
  match xs with
  | [] => Ok []
  | x :: rest =>
      y ← f x;
      ys ← map_ f rest;
      Ok (y :: ys)
  end.

Fixpoint filter_ {A} (f : A → result bool) (xs : list A) : result (list A) :=
  match xs with
  | [] => Ok []
  | x :: rest =>
      keep ← f x;
      kept ← filter_ f rest;
      Ok (if (keep : bool) then x :: kept else kept)
  end.

(** [v.map(f)] on a value read from a property: only an array has [map]. *)
Definition array_map {B} (v : option json) (f : json → result B) : result (list B) :=
  match v with
  | Some (JArr items) => map_ f items
  | _ => Throw TypeError
  end.

(** [new Set(xs)] and [set.has(x)] on strings. *)
Definition new_Set (xs : list string) : gset string := list_to_set xs.

Definition has (s : gset string) (x : string) : bool := bool_decide (x ∈ s).

(** White space and line terminators below 256: TAB, LF, VT, FF, CR, SP and
    NBSP. *)
Definition is_white (c : ascii) : bool :=
  let n := N_of_ascii c in
  ((9 <=? n) && (n <=? 13) || (n =? 32) || (n =? 160))%N.

Fixpoint trimStart (s : string) : string :=
  match s with
  | EmptyString => EmptyString
  | String c rest => if is_white c then trimStart rest else s
  end.

Fixpoint trimEnd (s : string) : string :=
  match s with
  | EmptyString => EmptyString
  | String c rest =>
      match trimEnd rest with
      | EmptyString => if is_white c then EmptyString else String c EmptyString
      | kept => String c kept
      end
  end.

Definition trim (s : string) : string := trimEnd (trimStart s).

(** [s.split(sep)] for a separator of one code unit. *)
Fixpoint split (sep : ascii) (s : string) : list string :=
  match s with
  | EmptyString => [EmptyString]
  | String c rest =>
      if Ascii.eqb c sep then EmptyString :: split sep rest
      else match split sep rest with
           | piece :: pieces => String c piece :: pieces
           | [] => [String c EmptyString]
           end
  end.

(** [Boolean(s)] on a string. *)
Definition Boolean (s : string) : bool := negb (String.eqb s "").

End Js.

Import Js.

(** ** The matching part of [handleImageAnalysis] (lines 219-257) *)

Module Matcher.

(** The [for (const tag of lowerCaseProductTags)] loop. *)
Definition count_common (detectedColorsSet : gset string)
    (lowerCaseProductTags : list string) : nat :=
  fold_left (fun commonColorCount tag =>
               if has detectedColorsSet tag then S commonColorCount
               else commonColorCount)
            lowerCaseProductTags 0.

(** Rule 1: Match if at least 3 colors are shared. *)
Definition rule1 (detectedColorsSet : gset string) (product : json) : result bool :=
  colorTags ← get product "colorTags";
  if not_ colorTags || negb (isArray colorTags) then Ok false
  else
    lowerCaseProductTags ← array_map colorTags call_toLowerCase;
    let commonColorCount := count_common detectedColorsSet lowerCaseProductTags in
    Ok (3 <=? commonColorCount).

(** Rule 2: Match if ALL detected colors are present. *)
Definition rule2 (lowerCaseDetectedColors : list string) (product : json) : result bool :=
  colorTags ← get product "colorTags";
  if not_ colorTags || negb (isArray colorTags) then Ok false
  else
    lowered ← array_map colorTags call_toLowerCase;
    let productTagsSet := new_Set lowered in
    Ok (forallb (fun color => has productTagsSet color) lowerCaseDetectedColors).

(** [allProducts.filter(callback)]: only an array has [filter]. *)
Definition filter_products (callback : json → result bool) (allProducts : json)
    : result (list json) :=
  match allProducts with
  | JArr products => filter_ callback products
  | _ => Throw TypeError
  end.

(** From [colors] to [matches]. *)
Definition find_matches (colors : list json) (allProducts : json) : result (list json) :=
  lowerCaseDetectedColors ← map_ call_toLowerCase colors;
  let detectedColorsSet := new_Set lowerCaseDetectedColors in
  if 3 <=? length lowerCaseDetectedColors
  then filter_products (rule1 detectedColorsSet) allProducts
  else filter_products (rule2 lowerCaseDetectedColors) allProducts.

End Matcher.

Import Matcher.

(** ** The component state and [handleImageAnalysis] (lines 136-266) *)

Module App.

(** The [useState] cells the handler reads or writes.  [detectedColors] holds
    the pair [{ mainColors, sideColors }]. *)
Record state : Type := State {
  allProducts : json;
  matchingProducts : list json;
  imagePreview : string;
  detectedColors : json * json;
  isAnalyzing : bool;
  analysisMessage : string;
  error : string
}.

(** How a block of statements ends: it falls through, it executes [return],
    or it throws. *)
Inductive completion (A : Type) : Type :=
  | Normal (a : A)
  | Return
  | Raise (e : exn).
Arguments Normal {A} a.
Arguments Return {A}.
Arguments Raise {A} e.

Definition act (A : Type) : Type := state → completion A * state.

(** Sequencing: the rest of the block runs only when the statement falls
    through. *)
Definition and_then {A B} (m : act A) (k : A → act B) : act B :=
  fun st =>
    match m st with
    | (Normal a, st') => k a st'
    | (Return, st') => (Return, st')
    | (Raise e, st') => (Raise e, st')
    end.

Declare Scope act_scope.
Delimit Scope act_scope with act.
Notation "x ← y ; z" := (and_then y (λ x : _, z))
  (at level 20, y at level 100, z at level 200, only parsing) : act_scope.
Notation "x ;; z" := (and_then x (λ _, z))
  (at level 100, z at level 200, only parsing, right associativity) : act_scope.

Definition return_ {A} : act A := fun st => (Return, st).

(** Evaluate an expression that may throw. *)
Definition eval {A} (r : result A) : act A :=
  fun st =>
    match r with
    | Ok a => (Normal a, st)
    | Throw e => (Raise e, st)
    end.

(** [try { body } catch (e) { handler } finally { final }]. *)
Definition try_catch_finally (body : act unit) (handler : exn → act unit)
    (final : act unit) : act unit :=
  fun st =>
    let (c, st1) := match body st with
                    | (Raise e, st') => handler e st'
                    | done => done
                    end in
    match final st1 with
    | (Normal _, st2) => (c, st2)
    | other => other
    end.

Definition setMatchingProducts (v : list json) : act unit :=
  fun st => (Normal (), State (allProducts st) v (imagePreview st)
                          (detectedColors st) (isAnalyzing st)
                          (analysisMessage st) (error st)).

Definition setDetectedColors (v : json * json) : act unit :=
  fun st => (Normal (), State (allProducts st) (matchingProducts st)
                          (imagePreview st) v (isAnalyzing st)
                          (analysisMessage st) (error st)).

Definition setIsAnalyzing (v : bool) : act unit :=
  fun st => (Normal (), State (allProducts st) (matchingProducts st)
                          (imagePreview st) (detectedColors st) v
                          (analysisMessage st) (error st)).

Definition setAnalysisMessage (v : string) : act unit :=
  fun st => (Normal (), State (allProducts st) (matchingProducts st)
                          (imagePreview st) (detectedColors st)
                          (isAnalyzing st) v (error st)).

Definition setError (v : string) : act unit :=
  fun st => (Normal (), State (allProducts st) (matchingProducts st)
                          (imagePreview st) (detectedColors st)
                          (isAnalyzing st) (analysisMessage st) v).

(** The messages passed to [setError]. *)
Definition msg_format : string :=
  "The AI response was not in the expected format. This can happen due to high traffic. Please try again in a moment.".
Definition msg_inconclusive : string :=
  "The AI analysis was inconclusive. Please try a different image.".
Definition msg_no_shoe : string :=
  "Please upload a photo of a shoe. We couldn't detect one in this image.".
Definition msg_no_colors : string :=
  "We couldn't determine the colors of the shoe. Please try a clearer image.".
Definition msg_failed : string :=
  "Sorry, we couldn't analyze the image or find matches. Please try another one.".

(** What the outside world did up to [JSON.parse]: either something threw
    (the data URL did not match, the request failed), or a text came back
    and [JSON.parse] returned a value or threw. *)
Inductive exchange : Type :=
  | Failed
  | Answered (parsed : option json).

(** [const { k = [] } = analysisResult]: the default replaces [undefined]
    only. *)
Definition or_empty (v : option json) : json :=
  match v with
  | None => JArr []
  | Some v => v
  end.

(** [!analysisResult || typeof analysisResult.isShoe === 'undefined']; the
    property is read only when the left operand is false. *)
Definition inconclusive (analysisResult : json) : result bool :=
  if negb (truthy analysisResult) then Ok true
  else isShoe ← get analysisResult "isShoe"; Ok (is_undefined isShoe).

(** [const { mainColors = [], sideColors = [] } = analysisResult]. *)
Definition destructure (analysisResult : json) : result (json * json) :=
  mainColors ← get analysisResult "mainColors";
  sideColors ← get analysisResult "sideColors";
  Ok (or_empty mainColors, or_empty sideColors).

(** [mainColors.length === 0 && sideColors.length === 0]. *)
Definition both_empty (mainColors sideColors : json) : result bool :=
  n ← length_of mainColors;
  if is_zero n
  then m ← length_of sideColors; Ok (is_zero m)
  else Ok false.

(** [[...mainColors, ...sideColors]]. *)
Definition concat (mainColors sideColors : json) : result (list json) :=
  main ← spread mainColors;
  side ← spread sideColors;
  Ok (main ++ side).

Local Open Scope act_scope.

(** Lines 196-257, after a successful [JSON.parse]; [products] is the
    [allProducts] the handler closed over. *)
Definition after_parse (analysisResult : json) (products : json) : act unit :=
  stop ← eval (inconclusive analysisResult);
  if (stop : bool) then
    setError msg_inconclusive ;; setIsAnalyzing false ;; return_
  else
  isShoe ← eval (get analysisResult "isShoe");
  if not_ isShoe then
    setError msg_no_shoe ;; setIsAnalyzing false ;; return_
  else
  found ← eval (destructure analysisResult);
  let (mainColors, sideColors) := (found : json * json) in
  none ← eval (both_empty mainColors sideColors);
  if (none : bool) then
    setError msg_no_colors ;; setIsAnalyzing false ;; return_
  else
  setDetectedColors (mainColors, sideColors) ;;
  colors ← eval (concat mainColors sideColors);
  matches ← eval (find_matches colors products);
  setMatchingProducts matches.

Definition handleImageAnalysis (x : exchange) : act unit :=
  fun st =>
  (if negb (Boolean (imagePreview st)) then return_
   else
     setIsAnalyzing true ;;
     setError "" ;;
     setDetectedColors (JArr [], JArr []) ;;
     setMatchingProducts [] ;;
     setAnalysisMessage "Analyzing image..." ;;
     try_catch_finally
       (match x with
        | Failed => eval (Throw ServiceError)
        | Answered None =>
            setError msg_format ;; setIsAnalyzing false ;; return_
        | Answered (Some analysisResult) =>
            after_parse analysisResult (allProducts st)
        end)
       (fun aiError => setError msg_failed)
       (setIsAnalyzing false ;; setAnalysisMessage "")) st.

(** The state once the handler has run. *)
Definition analyse (x : exchange) (st : state) : state :=
  snd (handleImageAnalysis x st).

End App.

Import App.

(** ** The tag construction of [handleProductSubmit] (lines 86-105) *)

Module Form.

(** The [newProduct] state: the five text inputs of the form. *)
Record newProduct : Type := NewProduct {
  name : string;
  imageSrc : string;
  link : string;
  mainColors : string;
  sideColors : string
}.

(** [input.split(',').map(s => s.trim()).filter(Boolean)]. *)
Definition split_map_filter (input : string) : list string :=
  List.filter Boolean (List.map (fun s => trim s) (split "," input)).

(** The object handed to [JSON.stringify]: [{ ...newProduct, colorTags }]. *)
Definition request_body (p : newProduct) : json :=
  let mainColorsArray := split_map_filter (mainColors p) in
  let sideColorsArray := split_map_filter (sideColors p) in
  let colorTags := mainColorsArray ++ sideColorsArray in
  JObj [("name", JStr (name p)); ("imageSrc", JStr (imageSrc p));
        ("link", JStr (link p)); ("mainColors", JStr (mainColors p));
        ("sideColors", JStr (sideColors p));
        ("colorTags", JArr (JStr <$> colorTags))].

(** The body of the POST request, or [None] when the handler stops at the
    required-field check and sends nothing. *)
Definition handleProductSubmit (p : newProduct) : option json :=
  if negb (Boolean (name p)) || negb (Boolean (imageSrc p)) || negb (Boolean (link p))
  then None
  else Some (request_body p).

End Form.

(** ** The other handlers of [App] (lines 21-134)

    The component has four more [useState] cells than [handleImageAnalysis]
    touches; [page] adds them to [state].  Each handler is run to its end on
    the answer the network gave it, with no other event in between.  The file
    input of the DOM, which [handleReset] also clears, is not React state and
    is left out. *)

Module Page.

Definition API_ENDPOINT : string :=
  "https://68bfa9999c70953d96f01f7f.mockapi.io/products".

Record page : Type := Page {
  analysis : state;
  isFetching : bool;
  showAddProductForm : bool;
  newProduct : Form.newProduct;
  isSubmitting : bool
}.

(** Setters, lifted to the whole page. *)
Definition on_analysis (f : state → state) (pg : page) : page :=
  Page (f (analysis pg)) (isFetching pg) (showAddProductForm pg) (newProduct pg)
    (isSubmitting pg).

Definition setAllProducts (v : json) : page → page :=
  on_analysis (fun st => State v (matchingProducts st) (imagePreview st)
                           (detectedColors st) (isAnalyzing st)
                           (analysisMessage st) (error st)).

Definition setMatchingProducts (v : list json) : page → page :=
  on_analysis (fun st => State (allProducts st) v (imagePreview st)
                           (detectedColors st) (isAnalyzing st)
                           (analysisMessage st) (error st)).

Definition setImagePreview (v : string) : page → page :=
  on_analysis (fun st => State (allProducts st) (matchingProducts st) v
                           (detectedColors st) (isAnalyzing st)
                           (analysisMessage st) (error st)).

Definition setDetectedColors (v : json * json) : page → page :=
  on_analysis (fun st => State (allProducts st) (matchingProducts st)
                           (imagePreview st) v (isAnalyzing st)
                           (analysisMessage st) (error st)).

Definition setError (v : string) : page → page :=
  on_analysis (fun st => State (allProducts st) (matchingProducts st)
                           (imagePreview st) (detectedColors st)
                           (isAnalyzing st) (analysisMessage st) v).

Definition setIsFetching (v : bool) (pg : page) : page :=
  Page (analysis pg) v (showAddProductForm pg) (newProduct pg) (isSubmitting pg).

Definition setShowAddProductForm (v : bool) (pg : page) : page :=
  Page (analysis pg) (isFetching pg) v (newProduct pg) (isSubmitting pg).

Definition setNewProduct (v : Form.newProduct) (pg : page) : page :=
  Page (analysis pg) (isFetching pg) (showAddProductForm pg) v (isSubmitting pg).

Definition setIsSubmitting (v : bool) (pg : page) : page :=
  Page (analysis pg) (isFetching pg) (showAddProductForm pg) (newProduct pg) v.

Definition msg_catalog : string :=
  "Could not load product catalog. Please check the API endpoint.".
Definition msg_save : string :=
  "Could not save the product. Please try again.".

(** What the catalogue store answered to the GET: the request failed, the
    status was not ok or the body was not JSON ([Unreachable]), or the body
    parsed to [data]. *)
Inductive listing : Type :=
  | Unreachable
  | Listed (data : json).

(** What it answered to the POST: [response.ok] ([Saved]), or a failed
    request or another status ([Refused]). *)
Inductive saving : Type :=
  | Refused
  | Saved.

(** Lines 36-59. *)
Definition fetchAllProducts (answer : listing) (pg : page) : page :=
  if negb (Boolean API_ENDPOINT) then setIsFetching false pg
  else
    setIsFetching false
      match answer with
      | Listed data => setAllProducts data pg
      | Unreachable => setAllProducts (JArr []) (setError msg_catalog pg)
      end.

(** Lines 65-74. *)
Definition handleReset (pg : page) : page :=
  setError ""
    (setMatchingProducts []
       (setDetectedColors (JArr [], JArr [])
          (setImagePreview "" pg))).

(** Lines 76-79. *)
Definition toggleAddProductForm (pg : page) : page :=
  setError "" (setShowAddProductForm (negb (showAddProductForm pg)) pg).

(** The [name] attributes of the inputs wired to [handleInputChange]. *)
Inductive input : Type :=
  | name
  | imageSrc
  | link
  | mainColors
  | sideColors.

(** [({ ...prev, [name]: value })]. *)
Definition assign (prev : Form.newProduct) (target : input) (value : string)
    : Form.newProduct :=
  match target with
  | name => Form.NewProduct value (Form.imageSrc prev) (Form.link prev)
              (Form.mainColors prev) (Form.sideColors prev)
  | imageSrc => Form.NewProduct (Form.name prev) value (Form.link prev)
                  (Form.mainColors prev) (Form.sideColors prev)
  | link => Form.NewProduct (Form.name prev) (Form.imageSrc prev) value
              (Form.mainColors prev) (Form.sideColors prev)
  | mainColors => Form.NewProduct (Form.name prev) (Form.imageSrc prev)
                    (Form.link prev) value (Form.sideColors prev)
  | sideColors => Form.NewProduct (Form.name prev) (Form.imageSrc prev)
                    (Form.link prev) (Form.mainColors prev) value
  end.

(** Lines 81-84. *)
Definition handleInputChange (target : input) (value : string) (pg : page) : page :=
  setNewProduct (assign (newProduct pg) target value) pg.

Definition blank : Form.newProduct := Form.NewProduct "" "" "" "" "".

(** Lines 86-120: the page after the handler, and the body it posted, if
    any.  [stored] answers the POST, [answer] the GET of the refresh. *)
Definition handleProductSubmit (stored : saving) (answer : listing) (pg : page)
    : page * option json :=
  match Form.handleProductSubmit (newProduct pg) with
  | None => (pg, None)
  | Some body =>
      let pg1 := setError "" (setIsSubmitting true pg) in
      let pg2 := match stored with
                 | Saved =>
                     fetchAllProducts answer
                       (setShowAddProductForm false (setNewProduct blank pg1))
                 | Refused => setError msg_save pg1
                 end in
      (setIsSubmitting false pg2, Some body)
  end.

(** Lines 123-134.  [file] is what the chosen file reads as: [None] when no
    file was chosen, otherwise [reader.result].  A failed read leaves [null]
    there; it stands as [""] here, every use of [imagePreview] being a test
    for truthiness or guarded by one. *)
Definition handleImageChange (file : option string) (pg : page) : page :=
  match file with
  | Some result => setImagePreview result (handleReset pg)
  | None => handleReset pg
  end.

(** [handleImageAnalysis] on the page. *)
Definition handleImageAnalysis (x : exchange) : page → page :=
  on_analysis (analyse x).

End Page.

(** [imagePreview.split(',')[1]] (line 153): the second piece, if any. *)
Definition inline_data (imagePreview : string) : option string :=
  split "," imagePreview !! 1.

(** ** Vocabulary of the statements *)

(** A product whose [colorTags] is the array of the strings [tags]. *)
Definition tagged (tags : list string) (product : json) : Prop :=
  get product "colorTags" = Ok (Some (JArr (JStr <$> tags))).

(** The product with the single property [colorTags: tags]. *)
Definition with_tags (tags : list string) : json :=
  JObj [("colorTags", JArr (JStr <$> tags))].

Definition is_string (v : json) : bool :=
  match v with JStr _ => true | _ => false end.

(** The products on which the filter callbacks do not throw: any value but
    [null] whose [colorTags] is absent, not an array, or an array of
    strings. *)
Definition product_ok (product : json) : bool :=
  match product with
  | JNull => false
  | JObj fields =>
      match lookup_field "colorTags" fields with
      | Some (JArr items) => forallb is_string items
      | _ => true
      end
  | _ => true
  end.

(** Whether the product carries a [colorTags] array at all. *)
Definition has_tag_array (product : json) : bool :=
  match get product "colorTags" with
  | Ok v => isArray v
  | Throw _ => false
  end.

(** The callback [find_matches] hands to [filter] for the detected colour
    names [D]. *)
Definition inclusion_test (D : list string) : json → result bool :=
  let lowerCaseDetectedColors := toLowerCase <$> D in
  if 3 <=? length lowerCaseDetectedColors
  then rule1 (new_Set lowerCaseDetectedColors)
  else rule2 lowerCaseDetectedColors.

(** A callback returned [true]. *)
Definition passes (callback : json → result bool) (product : json) : bool :=
  match callback product with
  | Ok true => true
  | _ => false
  end.

(** The number of tag occurrences whose lower-case form is a detected
    colour. *)
Definition shared_count (D tags : list string) : nat :=
  length (filter (λ tag, toLowerCase tag ∈ new_Set (toLowerCase <$> D)) tags).

(** Every detected colour, lower-cased, is among the lower-cased tags. *)
Definition all_present (D tags : list string) : Prop :=
  ∀ color, color ∈ toLowerCase <$> D → color ∈ new_Set (toLowerCase <$> tags).

(** A state in which an image has been chosen and [catalog] is loaded. *)
Definition ready (catalog : list json) : state :=
  State (JArr catalog) [] "data:image/png;base64,AAAA" (JArr [], JArr []) false "" "".

(** The parsed answer carries no boolean [isShoe]. *)
Definition lacks_boolean_isShoe (payload : json) : Prop :=
  ∀ b, get payload "isShoe" ≠ Ok (Some (JBool b)).

(** The property [k] is absent, in which case [items] is empty, or it is the
    array [items]. *)
Definition field_is_list (fields : list (string * json)) (k : string)
    (items : list json) : Prop :=
  (lookup_field k fields = None ∧ items = [])
  ∨ lookup_field k fields = Some (JArr items).

Definition is_nil {A} (l : list A) : bool :=
  match l with [] => true | _ => false end.

(** Unfolds the state operations of the handler on known values. *)
Ltac handler_step :=
  cbn [and_then eval return_ setIsAnalyzing setError setDetectedColors
       setMatchingProducts setAnalysisMessage allProducts matchingProducts
       imagePreview detectedColors isAnalyzing analysisMessage error
       negb snd fst].

(** The code unit [c] occurs in [s]. *)
Fixpoint contains (c : ascii) (s : string) : bool :=
  match s with
  | EmptyString => false
  | String c' rest => Ascii.eqb c' c || contains c rest
  end.

(** [s] is empty or consists of white space only. *)
Fixpoint all_white (s : string) : bool :=
  match s with
  | EmptyString => true
  | String c rest => is_white c && all_white rest
  end.

(** The pieces of [input] between its commas, each one trimmed, the empty
    ones dropped. *)
Definition trimmed_pieces (input : string) : list string :=
  filter (λ piece, piece ≠ "") (trim <$> split "," input).

(** The product [P], alone in the catalogue, is matched by the detected
    colour names [D]. *)
Definition is_match (D : list string) (P : json) : Prop :=
  find_matches (JStr <$> D) (JArr [P]) = Ok [P].

Definition head_white (s : string) : bool :=
  match s with
  | EmptyString => false
  | String c _ => is_white c
  end.

Fixpoint last_white (s : string) : bool :=
  match s with
  | EmptyString => false
  | String c EmptyString => is_white c
  | String _ rest => last_white rest
  end.

(** A tag as the form produces them: not empty, free of commas, with no
    white space at either end. *)
Definition clean (tag : string) : Prop :=
  tag ≠ "" ∧ contains "," tag = false ∧ head_white tag = false ∧ last_white tag = false.

(** The shape of every state [handleImageAnalysis] can end in when it was
    started in [st] with an image chosen. *)
Definition settled (st final : state) : Prop :=
  ∃ matches colors message,
    final = State (allProducts st) matches (imagePreview st) colors false "" message
    ∧ (message ≠ "" → matches = [])
    ∧ (message ≠ "" → message ≠ msg_failed → colors = (JArr [], JArr []))
    ∧ (∀ catalog, allProducts st = JArr catalog → sublist matches catalog)
    ∧ message ∈ [""; msg_format; msg_inconclusive; msg_no_shoe; msg_no_colors; msg_failed].

(** The page around an analysis state: nothing loading, the form closed and
    blank. *)
Definition page_of (st : state) : Page.page :=
  Page.Page st false false Page.blank false.

(** What the form holds for an input. *)
Definition read (i : Page.input) (p : Form.newProduct) : string :=
  match i with
  | Page.name => Form.name p
  | Page.imageSrc => Form.imageSrc p
  | Page.link => Form.link p
  | Page.mainColors => Form.mainColors p
  | Page.sideColors => Form.sideColors p
  end.

(** ** Lemmas on the built-ins *)

Section Builtins.

Lemma bind_Ok {A B} (a : A) (k : A → result B) : Ok a ≫= k = k a.
Proof. reflexivity. Qed.

Lemma map_lower_strings (D : list string) :
  map_ call_toLowerCase (JStr <$> D) = Ok (toLowerCase <$> D).
Proof.
  induction D as [|d D IH]; [reflexivity|].
  cbn [fmap list_fmap map_ call_toLowerCase]. rewrite bind_Ok.
  change (list_fmap _ _ JStr D) with (JStr <$> D). rewrite IH. reflexivity.
Qed.

Lemma map_lower_ok (items : list json) :
  is_ok (map_ call_toLowerCase items) = forallb is_string items.
Proof.
  induction items as [|v items IH]; [reflexivity|].
  destruct v; try reflexivity.
  cbn [map_ call_toLowerCase forallb is_string]. rewrite bind_Ok, <- IH.
  destruct (map_ call_toLowerCase items); reflexivity.
Qed.

Lemma strings_of_items (items : list json) :
  forallb is_string items = true → ∃ tags, items = JStr <$> tags.
Proof.
  induction items as [|v items IH]; intros H.
  - exists []. reflexivity.
  - cbn in H. apply andb_prop in H as [Hv H]. destruct (IH H) as [tags ->].
    destruct v; try discriminate. exists (s :: tags). reflexivity.
Qed.

Lemma has_true (S : gset string) (x : string) : has S x = true ↔ x ∈ S.
Proof. unfold has. rewrite bool_decide_eq_true. reflexivity. Qed.

Lemma count_common_from (S : gset string) (l : list string) (n : nat) :
  fold_left (fun count tag => if has S tag then Datatypes.S count else count) l n
  = n + length (filter (λ tag, tag ∈ S) l).
Proof.
  revert n. induction l as [|t l IH]; intros n; cbn [fold_left].
  - rewrite filter_nil. cbn. lia.
  - rewrite IH, filter_cons. unfold has.
    destruct (decide (t ∈ S)) as [Hin|Hout].
    + rewrite bool_decide_eq_true_2 by done. cbn. lia.
    + rewrite bool_decide_eq_false_2 by done. lia.
Qed.

Lemma count_common_length (S : gset string) (l : list string) :
  count_common S l = length (filter (λ tag, tag ∈ S) l).
Proof. unfold count_common. rewrite count_common_from. reflexivity. Qed.

Lemma filter_lowered (S : gset string) (tags : list string) :
  length (filter (λ tag, tag ∈ S) (toLowerCase <$> tags))
  = length (filter (λ tag, toLowerCase tag ∈ S) tags).
Proof.
  induction tags as [|t tags IH]; [reflexivity|].
  rewrite fmap_cons, !filter_cons.
  destruct (decide (toLowerCase t ∈ S)); cbn; rewrite IH; reflexivity.
Qed.

Lemma forallb_has (S : gset string) (l : list string) :
  forallb (fun color => has S color) l = true ↔ ∀ color, color ∈ l → color ∈ S.
Proof.
  rewrite forallb_forall. split; intros H c Hc.
  - apply has_true, H, list_elem_of_In, Hc.
  - apply has_true, H, list_elem_of_In, Hc.
Qed.

(** [filter_] returns exactly when the callback returns on every element,
    and then it is the list filter by [passes]. *)
Lemma filter__ok (f : json → result bool) (xs : list json) :
  is_ok (filter_ f xs) = forallb (fun x => is_ok (f x)) xs.
Proof.
  induction xs as [|x xs IH]; [reflexivity|].
  cbn [filter_ forallb]. destruct (f x) as [b|e]; [|reflexivity].
  rewrite bind_Ok, <- IH. destruct (filter_ f xs); reflexivity.
Qed.

Lemma filter__passes (f : json → result bool) (xs out : list json) :
  filter_ f xs = Ok out → out = List.filter (passes f) xs.
Proof.
  revert out. induction xs as [|x xs IH]; intros out H.
  - cbn in H. injection H as <-. reflexivity.
  - cbn [filter_] in H. cbn [List.filter]. unfold passes at 1.
    destruct (f x) as [b|e]; [|discriminate]. rewrite bind_Ok in H.
    destruct (filter_ f xs) as [kept|e]; [|discriminate].
    rewrite bind_Ok in H. rewrite <- (IH kept eq_refl).
    destruct b; congruence.
Qed.

Lemma filter__total (f : json → result bool) (xs : list json) :
  forallb (fun x => is_ok (f x)) xs = true →
  filter_ f xs = Ok (List.filter (passes f) xs).
Proof.
  intros H. rewrite <- filter__ok in H.
  destruct (filter_ f xs) as [out|e] eqn:E; [|discriminate].
  rewrite (filter__passes _ _ _ E). reflexivity.
Qed.

Lemma filter__throws (f : json → result bool) (xs : list json) e :
  (∀ x, is_ok (f x) = false → f x = Throw e) →
  forallb (fun x => is_ok (f x)) xs = false → filter_ f xs = Throw e.
Proof.
  intros He. induction xs as [|x xs IH]; [discriminate|].
  cbn [forallb filter_]. destruct (f x) as [b|e'] eqn:E.
  - cbn [is_ok andb]. intros H. rewrite bind_Ok, (IH H). reflexivity.
  - intros _. specialize (He x). rewrite E in He. rewrite (He eq_refl).
    reflexivity.
Qed.

End Builtins.

(** ** The matching rules *)

Section Matching.

Implicit Types (D tags : list string) (P : json) (catalog : list json).

Lemma find_matches_strings D catalog :
  find_matches (JStr <$> D) (JArr catalog) = filter_ (inclusion_test D) catalog.
Proof.
  unfold find_matches, inclusion_test. rewrite map_lower_strings, bind_Ok.
  cbn zeta. destruct (3 <=? length (toLowerCase <$> D)); reflexivity.
Qed.

Lemma rule1_tagged (S : gset string) tags P :
  tagged tags P →
  rule1 S P = Ok (3 <=? length (filter (λ tag, toLowerCase tag ∈ S) tags)).
Proof.
  unfold tagged, rule1. intros ->. rewrite bind_Ok. cbn [not_ truthy isArray negb orb].
  cbn [array_map]. rewrite map_lower_strings, bind_Ok.
  rewrite count_common_length, filter_lowered. reflexivity.
Qed.

Lemma rule2_tagged (L : list string) tags P :
  tagged tags P →
  rule2 L P = Ok (forallb (fun color => has (new_Set (toLowerCase <$> tags)) color) L).
Proof.
  unfold tagged, rule2. intros ->. rewrite bind_Ok. cbn [not_ truthy isArray negb orb].
  cbn [array_map]. rewrite map_lower_strings, bind_Ok. reflexivity.
Qed.

Lemma rules_without_array (S : gset string) (L : list string) P v :
  get P "colorTags" = Ok v → isArray v = false →
  rule1 S P = Ok false ∧ rule2 L P = Ok false.
Proof.
  intros Hget Harr. unfold rule1, rule2. rewrite Hget, !bind_Ok, Harr.
  rewrite orb_true_r. split; reflexivity.
Qed.

Lemma rule_ok_aux P (k : list string → bool) :
  is_ok (colorTags ← get P "colorTags";
         if not_ colorTags || negb (isArray colorTags) then Ok false
         else lowered ← array_map colorTags call_toLowerCase; Ok (k lowered))
  = product_ok P.
Proof.
  destruct P as [| | | | |fields]; try reflexivity.
  cbn [get product_ok]. rewrite bind_Ok.
  destruct (lookup_field "colorTags" fields) as [[| | | |items|]|]; try reflexivity.
  - cbn [not_ truthy]. destruct b; reflexivity.
  - cbn [not_ truthy]. destruct (negb (n =? 0)%Z); reflexivity.
  - cbn [not_ truthy]. destruct (negb (String.eqb s "")); reflexivity.
  - cbn [not_ truthy isArray negb orb array_map]. rewrite <- map_lower_ok.
    destruct (map_ call_toLowerCase items); reflexivity.
Qed.

Lemma test_ok D P : is_ok (inclusion_test D P) = product_ok P.
Proof.
  unfold inclusion_test. cbn zeta.
  destruct (3 <=? length (toLowerCase <$> D)).
  - apply (rule_ok_aux P (fun lowered => 3 <=? count_common _ lowered)).
  - apply (rule_ok_aux P (fun lowered => forallb _ _)).
Qed.

Lemma all_tests_ok D catalog :
  forallb (fun P => is_ok (inclusion_test D P)) catalog = forallb product_ok catalog.
Proof.
  induction catalog as [|P catalog IH]; [reflexivity|].
  cbn [forallb]. rewrite test_ok, IH. reflexivity.
Qed.

Lemma rule_throw_aux P (k : list string → bool) :
  is_ok (colorTags ← get P "colorTags";
         if not_ colorTags || negb (isArray colorTags) then Ok false
         else lowered ← array_map colorTags call_toLowerCase; Ok (k lowered))
  = false →
  (colorTags ← get P "colorTags";
   if not_ colorTags || negb (isArray colorTags) then Ok false
   else lowered ← array_map colorTags call_toLowerCase; Ok (k lowered))
  = Throw TypeError.
Proof.
  assert (Hmap : ∀ items e, map_ call_toLowerCase items = Throw e → e = TypeError).
  { induction items as [|v items IH]; intros e; [discriminate|].
    destruct v; cbn [map_ call_toLowerCase]; try (intros [= <-]; reflexivity).
    rewrite bind_Ok. destruct (map_ call_toLowerCase items) as [ys|e'] eqn:E.
    - discriminate.
    - intros [= <-]. apply (IH e' eq_refl). }
  destruct P as [| | | | |fields]; try discriminate; [reflexivity|].
  cbn [get]. rewrite bind_Ok.
  destruct (not_ (lookup_field "colorTags" fields)
            || negb (isArray (lookup_field "colorTags" fields))); [discriminate|].
  destruct (lookup_field "colorTags" fields) as [[| | | |items|]|]; try reflexivity.
  cbn [array_map]. destruct (map_ call_toLowerCase items) as [ys|e] eqn:E.
  - discriminate.
  - rewrite (Hmap items e E). reflexivity.
Qed.

Lemma test_throws D P :
  is_ok (inclusion_test D P) = false → inclusion_test D P = Throw TypeError.
Proof.
  unfold inclusion_test. cbn zeta.
  destruct (3 <=? length (toLowerCase <$> D)).
  - apply (rule_throw_aux P (fun lowered => 3 <=? count_common _ lowered)).
  - apply (rule_throw_aux P (fun lowered => forallb _ _)).
Qed.

(** The matching on colour names and a catalogue, in closed form. *)
Lemma find_matches_closed D catalog :
  find_matches (JStr <$> D) (JArr catalog)
  = if forallb product_ok catalog
    then Ok (List.filter (passes (inclusion_test D)) catalog)
    else Throw TypeError.
Proof.
  rewrite find_matches_strings, <- (all_tests_ok D).
  destruct (forallb _ catalog) eqn:E.
  - apply filter__total, E.
  - apply filter__throws; [apply test_throws | exact E].
Qed.

Lemma elem_of_matches D P catalog :
  P ∈ List.filter (passes (inclusion_test D)) catalog
  ↔ P ∈ catalog ∧ inclusion_test D P = Ok true.
Proof.
  rewrite !list_elem_of_In, filter_In. unfold passes.
  destruct (inclusion_test D P) as [[]|]; intuition congruence.
Qed.

Lemma filter_sublist {A} (f : A → bool) (l : list A) : sublist (List.filter f l) l.
Proof.
  induction l as [|x l IH]; cbn [List.filter]; [constructor|].
  destruct (f x); constructor; exact IH.
Qed.

Lemma shared_le_distinct (S : gset string) (l : list string) :
  NoDup l → length (filter (λ tag, tag ∈ S) l) ≤ size S.
Proof.
  intros Hnd.
  rewrite <- (size_list_to_set (C := gset string)) by (apply NoDup_filter, Hnd).
  apply subseteq_size. intros x Hx.
  apply elem_of_list_to_set, list_elem_of_filter in Hx. tauto.
Qed.

End Matching.

Section Untagged.

Implicit Types (D : list string) (P : json) (catalog : list json).

Lemma test_without_array D P v :
  get P "colorTags" = Ok v → isArray v = false → inclusion_test D P = Ok false.
Proof.
  intros Hget Harr. unfold inclusion_test. cbn zeta.
  destruct (3 <=? length (toLowerCase <$> D)).
  - apply (proj1 (rules_without_array _ [] P v Hget Harr)).
  - apply (proj2 (rules_without_array ∅ _ P v Hget Harr)).
Qed.

Lemma no_pass_without_array D P :
  has_tag_array P = false → passes (inclusion_test D) P = false.
Proof.
  unfold has_tag_array, passes. intros H.
  destruct (get P "colorTags") as [v|e] eqn:Hget.
  - rewrite (test_without_array D P v Hget H). reflexivity.
  - destruct P; try discriminate. unfold inclusion_test. cbn zeta.
    destruct (3 <=? length (toLowerCase <$> D)); reflexivity.
Qed.

Lemma pass_on_empty P :
  product_ok P = true → passes (inclusion_test []) P = has_tag_array P.
Proof.
  intros Hok. destruct P as [| | | | |fields]; try reflexivity.
  revert Hok.
  unfold passes, inclusion_test, has_tag_array, rule2.
  cbn [fmap list_fmap length Nat.leb get product_ok]. rewrite bind_Ok.
  destruct (lookup_field "colorTags" fields) as [[| | | |items|]|];
    try (intros _; reflexivity).
  - intros _. cbn [not_ truthy]. destruct b; reflexivity.
  - intros _. cbn [not_ truthy]. destruct (negb (n =? 0)%Z); reflexivity.
  - intros _. cbn [not_ truthy]. destruct (negb (String.eqb s "")); reflexivity.
  - intros Hs. apply strings_of_items in Hs as [tags ->].
    cbn [not_ truthy isArray negb orb array_map]. rewrite map_lower_strings. reflexivity.
Qed.

End Untagged.

(** ** Properties of the matching *)

(** C1. Broad match rule: when at least three colour names were detected, a
    product of the catalogue whose [colorTags] is an array of strings is among
    the matches exactly when at least three of its tag occurrences are, in
    lower case, members of the set of lower-cased detected colours.  The
    count runs over the tag list, one for each occurrence. *)
Theorem broad_match_rule (D : list string) (catalog : list json) :
  3 ≤ length (toLowerCase <$> D) →
  forallb product_ok catalog = true →
  ∃ out, find_matches (JStr <$> D) (JArr catalog) = Ok out ∧
    ∀ P tags, tagged tags P →
      (P ∈ out ↔ P ∈ catalog ∧ 3 ≤ shared_count D tags).
Proof.
  intros Hlen Hok. rewrite find_matches_closed, Hok.
  eexists; split; [reflexivity|]. intros P tags Htag.
  rewrite elem_of_matches. unfold inclusion_test. cbn zeta.
  apply Nat.leb_le in Hlen as Hb. rewrite Hb.
  rewrite (rule1_tagged _ _ _ Htag). unfold shared_count.
  split; intros [Hin Hc]; (split; [exact Hin|]).
  - injection Hc as Hc. apply Nat.leb_le, Hc.
  - f_equal. apply Nat.leb_le, Hc.
Qed.

Lemma broad_match_rule_witness :
  ∃ out, find_matches (JStr <$> ["black"; "White"; "red"])
           (JArr [with_tags ["RED"; "red"; "Red"]; with_tags ["black"; "white"]]) = Ok out ∧
    ∀ P tags, tagged tags P →
      (P ∈ out ↔ P ∈ [with_tags ["RED"; "red"; "Red"]; with_tags ["black"; "white"]]
                 ∧ 3 ≤ shared_count ["black"; "White"; "red"] tags).
Proof.
  apply (broad_match_rule ["black"; "White"; "red"]
           [with_tags ["RED"; "red"; "Red"]; with_tags ["black"; "white"]]).
  - cbn. lia.
  - reflexivity.
Defined.

(** C2. Exact subset rule: when fewer than three colour names were detected,
    a product of the catalogue whose [colorTags] is an array of strings is
    among the matches exactly when every element of the lower-cased detected
    list is a member of the set of its lower-cased tags. *)
Theorem exact_subset_rule (D : list string) (catalog : list json) :
  length (toLowerCase <$> D) < 3 →
  forallb product_ok catalog = true →
  ∃ out, find_matches (JStr <$> D) (JArr catalog) = Ok out ∧
    ∀ P tags, tagged tags P →
      (P ∈ out ↔ P ∈ catalog ∧ all_present D tags).
Proof.
  intros Hlen Hok. rewrite find_matches_closed, Hok.
  eexists; split; [reflexivity|]. intros P tags Htag.
  rewrite elem_of_matches. unfold inclusion_test. cbn zeta.
  apply Nat.leb_gt in Hlen as Hb. rewrite Hb.
  rewrite (rule2_tagged _ _ _ Htag). unfold all_present.
  rewrite <- forallb_has.
  split; intros [Hin Hc]; (split; [exact Hin|]); congruence.
Qed.

Lemma exact_subset_rule_witness :
  ∃ out, find_matches (JStr <$> ["Teal"])
           (JArr [with_tags ["teal"; "black"]; with_tags ["navy"]]) = Ok out ∧
    ∀ P tags, tagged tags P →
      (P ∈ out ↔ P ∈ [with_tags ["teal"; "black"]; with_tags ["navy"]]
                 ∧ all_present ["Teal"] tags).
Proof.
  apply (exact_subset_rule ["Teal"] [with_tags ["teal"; "black"]; with_tags ["navy"]]).
  - cbn. lia.
  - reflexivity.
Defined.

(** C3. Branch selection: the list that is matched is [mainColors] followed
    by [sideColors], and the rule is chosen by comparing the length of that
    list, duplicates included, with 3.  So a list of three or more entries
    with fewer than three distinct colours is matched by the broad rule: a
    product whose tags are pairwise distinct is then never matched, whether
    or not it carries every detected colour. *)
Theorem threshold_on_raw_length (main side : list string) (catalog : list json) :
  concat (JArr (JStr <$> main)) (JArr (JStr <$> side)) = Ok (JStr <$> (main ++ side))
  ∧ find_matches (JStr <$> (main ++ side)) (JArr catalog)
    = (if 3 <=? length main + length side
       then filter_ (rule1 (new_Set (toLowerCase <$> (main ++ side)))) catalog
       else filter_ (rule2 (toLowerCase <$> (main ++ side))) catalog)
  ∧ (3 ≤ length main + length side →
     size (new_Set (toLowerCase <$> (main ++ side))) < 3 →
     ∀ P tags, tagged tags P → NoDup (toLowerCase <$> tags) →
       find_matches (JStr <$> (main ++ side)) (JArr [P]) = Ok []).
Proof.
  assert (Hfind : ∀ catalog, find_matches (JStr <$> (main ++ side)) (JArr catalog)
    = (if 3 <=? length main + length side
       then filter_ (rule1 (new_Set (toLowerCase <$> (main ++ side)))) catalog
       else filter_ (rule2 (toLowerCase <$> (main ++ side))) catalog)).
  { intros c. rewrite find_matches_strings. unfold inclusion_test. cbn zeta.
    rewrite length_fmap, length_app.
    destruct (3 <=? length main + length side); reflexivity. }
  split; [|split].
  - unfold concat. cbn [spread]. rewrite !bind_Ok, fmap_app. reflexivity.
  - apply Hfind.
  - intros Hlen Hsize P tags Htag Hnd. rewrite Hfind.
    apply Nat.leb_le in Hlen. rewrite Hlen. cbn [filter_].
    rewrite (rule1_tagged _ _ _ Htag), bind_Ok. cbn [filter_]. rewrite bind_Ok.
    rewrite <- filter_lowered.
    pose proof (shared_le_distinct
                  (new_Set (toLowerCase <$> (main ++ side))) _ Hnd) as Hle.
    clear Hfind. destruct (3 <=? length _) eqn:E; [|reflexivity].
    apply Nat.leb_le in E. lia.
Qed.

Lemma threshold_on_raw_length_witness :
  find_matches (JStr <$> (["red"; "Red"] ++ ["RED"])) (JArr [with_tags ["red"; "blue"]]) = Ok []
  ∧ filter_ (rule2 (toLowerCase <$> (["red"; "Red"] ++ ["RED"]))) [with_tags ["red"; "blue"]]
    = Ok [with_tags ["red"; "blue"]].
Proof.
  split; [|vm_compute; reflexivity].
  apply (proj2 (proj2 (threshold_on_raw_length ["red"; "Red"] ["RED"] []))
           ltac:(cbn; lia) ltac:(vm_compute; lia)
           (with_tags ["red"; "blue"]) ["red"; "blue"] eq_refl).
  apply (bool_decide_unpack _). vm_compute. exact I.
Defined.

(** C4, as the code has it.  The matching of colour names against a
    catalogue returns normally when every product is a value other than
    [null] whose [colorTags] is absent, not an array, or an array of strings,
    and then a product without a [colorTags] array is not among the matches.
    On any other catalogue it throws a [TypeError]. *)
Theorem matching_total_on_string_tags (D : list string) (catalog : list json) :
  (forallb product_ok catalog = true →
   ∃ out, find_matches (JStr <$> D) (JArr catalog) = Ok out ∧
     ∀ P, has_tag_array P = false → P ∉ out)
  ∧ (forallb product_ok catalog = false →
     find_matches (JStr <$> D) (JArr catalog) = Throw TypeError).
Proof.
  rewrite find_matches_closed. split; intros ->; [|reflexivity].
  eexists; split; [reflexivity|]. intros P Harr Hin.
  apply list_elem_of_In, filter_In in Hin as [_ Hpass].
  rewrite (no_pass_without_array D P Harr) in Hpass. discriminate.
Qed.

Lemma matching_total_on_string_tags_witness :
  ∃ out, find_matches (JStr <$> ["red"])
           (JArr [JObj []; JObj [("colorTags", JStr "red")]; JNum 7; with_tags ["Red"]])
         = Ok out ∧
     ∀ P, has_tag_array P = false → P ∉ out.
Proof.
  apply (proj1 (matching_total_on_string_tags ["red"]
           [JObj []; JObj [("colorTags", JStr "red")]; JNum 7; with_tags ["Red"]])).
  reflexivity.
Defined.

(** C4, as the specification states it, fails: a [colorTags] array with a
    member that is not a string makes [tag.toLowerCase()] throw, and the
    handler ends in its [catch] block with the general failure message. *)
Lemma matching_throws_on_number_tag :
  find_matches [JStr "red"] (JArr [JObj [("colorTags", JArr [JNum 1])]]) = Throw TypeError
  ∧ find_matches [] (JArr [JObj [("colorTags", JArr [JStr "red"; JNull])]]) = Throw TypeError
  ∧ error (analyse
             (Answered (Some (JObj [("isShoe", JBool true); ("mainColors", JArr [JStr "red"])])))
             (ready [JObj [("colorTags", JArr [JNum 1])]]))
    = msg_failed.
Proof. vm_compute. repeat split. Qed.

(** C6. A product whose [colorTags] is missing or is not an array makes both
    callbacks return [false], whatever was detected, and is not among the
    matches. *)
Theorem no_match_without_tag_array (D : list string) (P : json) (v : option json)
    (catalog : list json) :
  get P "colorTags" = Ok v → isArray v = false →
  (∀ S, rule1 S P = Ok false)
  ∧ (∀ L, rule2 L P = Ok false)
  ∧ (forallb product_ok catalog = true →
     ∃ out, find_matches (JStr <$> D) (JArr catalog) = Ok out ∧ P ∉ out).
Proof.
  intros Hget Harr. split; [|split].
  - intros S. apply (proj1 (rules_without_array S [] P v Hget Harr)).
  - intros L. apply (proj2 (rules_without_array ∅ L P v Hget Harr)).
  - intros Hok. rewrite find_matches_closed, Hok.
    eexists; split; [reflexivity|]. rewrite elem_of_matches.
    rewrite (test_without_array D P v Hget Harr). intros [_ [=]].
Qed.

Lemma no_match_without_tag_array_witness :
  (∀ S, rule1 S (JObj [("name", JStr "Runner"); ("colorTags", JStr "red")]) = Ok false)
  ∧ (∀ L, rule2 L (JObj [("name", JStr "Runner"); ("colorTags", JStr "red")]) = Ok false)
  ∧ (forallb product_ok [JObj [("name", JStr "Runner"); ("colorTags", JStr "red")];
                         with_tags ["red"]] = true →
     ∃ out, find_matches (JStr <$> ["red"])
              (JArr [JObj [("name", JStr "Runner"); ("colorTags", JStr "red")];
                     with_tags ["red"]]) = Ok out
            ∧ JObj [("name", JStr "Runner"); ("colorTags", JStr "red")] ∉ out).
Proof.
  apply (no_match_without_tag_array ["red"]
           (JObj [("name", JStr "Runner"); ("colorTags", JStr "red")])
           (Some (JStr "red"))); reflexivity.
Defined.

(** C7. With no detected colour the exact subset rule applies and holds
    vacuously: the matches are exactly the products that carry a [colorTags]
    array, the empty array included, in catalogue order. *)
Theorem empty_detected_matches_tag_arrays (catalog : list json) :
  forallb product_ok catalog = true →
  find_matches [] (JArr catalog) = filter_ (rule2 []) catalog
  ∧ find_matches [] (JArr catalog) = Ok (List.filter has_tag_array catalog).
Proof.
  intros Hok. split; [reflexivity|].
  change (@nil json) with (JStr <$> @nil string) at 1.
  rewrite find_matches_closed, Hok. f_equal.
  apply filter_ext_in. intros P HP. apply pass_on_empty.
  rewrite forallb_forall in Hok. apply Hok, HP.
Qed.

Lemma empty_detected_matches_tag_arrays_witness :
  find_matches [] (JArr [with_tags []; JObj [("name", JStr "Runner")];
                        JObj [("colorTags", JNum 3)]; with_tags ["navy"]])
  = Ok [with_tags []; with_tags ["navy"]].
Proof.
  apply (empty_detected_matches_tag_arrays
           [with_tags []; JObj [("name", JStr "Runner")];
            JObj [("colorTags", JNum 3)]; with_tags ["navy"]]).
  reflexivity.
Defined.

(** C9. The matching is a filter: what it returns is the catalogue filtered
    by the inclusion test, hence a subsequence of the catalogue in catalogue
    order; it returns on every catalogue of well-formed products, and on the
    empty catalogue it returns the empty list. *)
Theorem match_is_filter (D : list string) (catalog : list json) :
  (∀ out, find_matches (JStr <$> D) (JArr catalog) = Ok out →
     out = List.filter (passes (inclusion_test D)) catalog ∧ sublist out catalog)
  ∧ (forallb product_ok catalog = true →
     ∃ out, find_matches (JStr <$> D) (JArr catalog) = Ok out)
  ∧ find_matches (JStr <$> D) (JArr []) = Ok [].
Proof.
  split; [|split].
  - intros out. rewrite find_matches_strings. intros H.
    apply filter__passes in H as ->. split; [reflexivity|apply filter_sublist].
  - intros Hok. rewrite find_matches_closed, Hok. eexists; reflexivity.
  - rewrite find_matches_closed. reflexivity.
Qed.

Lemma match_is_filter_witness :
  [with_tags ["Black"; "WHITE"; "red"]; with_tags ["red"; "white"; "black"; "blue"]]
  = List.filter (passes (inclusion_test ["black"; "white"; "red"]))
      [with_tags ["Black"; "WHITE"; "red"]; with_tags ["black"];
       with_tags ["red"; "white"; "black"; "blue"]]
  ∧ sublist
      [with_tags ["Black"; "WHITE"; "red"]; with_tags ["red"; "white"; "black"; "blue"]]
      [with_tags ["Black"; "WHITE"; "red"]; with_tags ["black"];
       with_tags ["red"; "white"; "black"; "blue"]].
Proof.
  apply (proj1 (match_is_filter ["black"; "white"; "red"]
                  [with_tags ["Black"; "WHITE"; "red"]; with_tags ["black"];
                   with_tags ["red"; "white"; "black"; "blue"]])).
  vm_compute. reflexivity.
Defined.

(** ** Properties of the validation of the answer *)

Section Validation.

Implicit Types (payload : json) (st : state).

Lemma inconclusive_true payload :
  inconclusive payload = Ok true ↔ truthy payload = false ∨ get payload "isShoe" = Ok None.
Proof.
  unfold inconclusive. destruct (truthy payload) eqn:Ht; cbn [negb].
  - destruct (get payload "isShoe") as [[v|]|e] eqn:Hg; cbn.
    + split; [discriminate|]. intros [|]; discriminate.
    + split; [right; reflexivity | reflexivity].
    + split; [discriminate|]. intros [|]; discriminate.
  - split; [left; reflexivity | reflexivity].
Qed.

Lemma inconclusive_false payload v :
  truthy payload = true → get payload "isShoe" = Ok (Some v) →
  inconclusive payload = Ok false.
Proof. intros Ht Hg. unfold inconclusive. rewrite Ht, Hg. reflexivity. Qed.

Lemma truthy_or_field payload :
  truthy payload = false ∨ get payload "isShoe" = Ok None
  ∨ ∃ v, truthy payload = true ∧ get payload "isShoe" = Ok (Some v).
Proof.
  destruct (truthy payload) eqn:Ht; [|left; reflexivity]. right.
  destruct payload as [| | | | |fields]; try discriminate; try (left; reflexivity).
  cbn [get]. destruct (lookup_field "isShoe" fields) as [v|]; [|left; reflexivity].
  right. exists v. split; reflexivity.
Qed.

Lemma analyse_inconclusive payload st :
  Boolean (imagePreview st) = true →
  inconclusive payload = Ok true →
  analyse (Answered (Some payload)) st
  = State (allProducts st) [] (imagePreview st) (JArr [], JArr []) false "" msg_inconclusive.
Proof.
  intros Hp Hi.
  unfold analyse, handleImageAnalysis, try_catch_finally, after_parse.
  rewrite Hp, Hi. handler_step. reflexivity.
Qed.

Lemma analyse_with_isShoe payload v st :
  Boolean (imagePreview st) = true →
  truthy payload = true → get payload "isShoe" = Ok (Some v) →
  error (analyse (Answered (Some payload)) st)
  ∈ [msg_no_shoe; msg_no_colors; msg_failed; ""].
Proof.
  intros Hp Ht Hg. pose proof (inconclusive_false _ _ Ht Hg) as Hi.
  unfold analyse, handleImageAnalysis, try_catch_finally, after_parse.
  rewrite Hp, Hi, Hg. handler_step.
  destruct (not_ (Some v)); handler_step; [set_solver|].
  destruct (destructure payload) as [[m s]|e]; handler_step; [|set_solver].
  destruct (both_empty m s) as [[]|e]; handler_step; [set_solver| |set_solver].
  destruct (concat m s) as [colors|e]; handler_step; [|set_solver].
  destruct (find_matches colors (allProducts st)) as [out|e]; handler_step; set_solver.
Qed.

End Validation.

(** C5, as the code has it.  The analysis ends with the inconclusive message
    exactly when the parsed answer is falsy or has no [isShoe] property at
    all; it then leaves no detected colours and no matches.  An answer whose
    [isShoe] is present, of whatever type, passes this check. *)
Theorem inconclusive_iff_isShoe_absent (payload : json) (st : state) :
  Boolean (imagePreview st) = true →
  (error (analyse (Answered (Some payload)) st) = msg_inconclusive
   ↔ truthy payload = false ∨ get payload "isShoe" = Ok None)
  ∧ (truthy payload = false ∨ get payload "isShoe" = Ok None →
     analyse (Answered (Some payload)) st
     = State (allProducts st) [] (imagePreview st) (JArr [], JArr []) false ""
         msg_inconclusive).
Proof.
  intros Hp.
  assert (Hstate : truthy payload = false ∨ get payload "isShoe" = Ok None →
     analyse (Answered (Some payload)) st
     = State (allProducts st) [] (imagePreview st) (JArr [], JArr []) false ""
         msg_inconclusive).
  { intros H. apply analyse_inconclusive; [exact Hp|]. apply inconclusive_true, H. }
  split; [|exact Hstate]. split.
  - intros He. destruct (truthy_or_field payload) as [H|[H|(v & Ht & Hg)]];
      [left; exact H | right; exact H |].
    pose proof (analyse_with_isShoe payload v st Hp Ht Hg) as Hin.
    rewrite He in Hin. exfalso. revert Hin. clear.
    rewrite !elem_of_cons, elem_of_nil. intros [H|[H|[H|[H|[]]]]]; discriminate H.
  - intros H. rewrite (Hstate H). reflexivity.
Qed.

Lemma inconclusive_iff_isShoe_absent_witness :
  analyse (Answered (Some (JObj [("mainColors", JArr [JStr "red"])]))) (ready [with_tags ["red"]])
  = State (JArr [with_tags ["red"]]) [] "data:image/png;base64,AAAA" (JArr [], JArr [])
      false "" msg_inconclusive.
Proof.
  apply (proj2 (inconclusive_iff_isShoe_absent
                  (JObj [("mainColors", JArr [JStr "red"])])
                  (ready [with_tags ["red"]]) eq_refl)).
  right. reflexivity.
Defined.

(** C5, as the specification states it, fails: an answer whose [isShoe] is
    the string ["yes"] has no boolean [isShoe], yet the analysis goes on to
    record the colours and the matches; with [isShoe: null] it ends with the
    no-shoe message. *)
Lemma non_boolean_isShoe_is_not_inconclusive :
  lacks_boolean_isShoe (JObj [("isShoe", JStr "yes"); ("mainColors", JArr [JStr "red"])])
  ∧ analyse (Answered (Some (JObj [("isShoe", JStr "yes"); ("mainColors", JArr [JStr "red"])])))
      (ready [with_tags ["red"]])
    = State (JArr [with_tags ["red"]]) [with_tags ["red"]] "data:image/png;base64,AAAA"
        (JArr [JStr "red"], JArr []) false "" ""
  ∧ lacks_boolean_isShoe (JObj [("isShoe", JNull)])
  ∧ error (analyse (Answered (Some (JObj [("isShoe", JNull)]))) (ready []))
    = msg_no_shoe.
Proof.
  split; [intros b; discriminate|]. split; [vm_compute; reflexivity|].
  split; [intros b; discriminate|]. vm_compute; reflexivity.
Qed.

(** C8. When [isShoe] is [true], a missing [mainColors] or [sideColors]
    counts as the empty list.  If both lists are empty the analysis ends with
    the no-colours message and records nothing; otherwise it records exactly
    the two lists as the detected colours and goes on to the matching. *)
Theorem colors_after_shoe_detected (fields : list (string * json))
    (main side : list json) (st : state) :
  Boolean (imagePreview st) = true →
  lookup_field "isShoe" fields = Some (JBool true) →
  field_is_list fields "mainColors" main →
  field_is_list fields "sideColors" side →
  analyse (Answered (Some (JObj fields))) st
  = if is_nil main && is_nil side
    then State (allProducts st) [] (imagePreview st) (JArr [], JArr []) false ""
           msg_no_colors
    else match find_matches (main ++ side) (allProducts st) with
         | Ok matches =>
             State (allProducts st) matches (imagePreview st) (JArr main, JArr side)
               false "" ""
         | Throw _ =>
             State (allProducts st) [] (imagePreview st) (JArr main, JArr side)
               false "" msg_failed
         end.
Proof.
  intros Hp Hshoe Hmain Hside.
  assert (Hi : inconclusive (JObj fields) = Ok false).
  { apply (inconclusive_false _ (JBool true)); [reflexivity|]. cbn [get]. rewrite Hshoe.
    reflexivity. }
  assert (Hd : destructure (JObj fields) = Ok (JArr main, JArr side)).
  { unfold destructure. cbn [get]. rewrite !bind_Ok.
    destruct Hmain as [[-> ->]| ->], Hside as [[-> ->]| ->]; reflexivity. }
  assert (Hb : both_empty (JArr main) (JArr side) = Ok (is_nil main && is_nil side)).
  { unfold both_empty. cbn [length_of]. rewrite bind_Ok.
    destruct main as [|x main]; [|reflexivity]. cbn [is_zero length Z.of_nat Z.eqb].
    rewrite bind_Ok. destruct side; reflexivity. }
  unfold analyse, handleImageAnalysis, try_catch_finally, after_parse.
  rewrite Hp, Hi. cbn [get]. rewrite Hshoe, Hd. handler_step.
  cbn [not_ truthy negb]. handler_step. rewrite Hb. handler_step.
  destruct (is_nil main && is_nil side); handler_step; [reflexivity|].
  unfold concat. cbn [spread]. rewrite !bind_Ok. handler_step.
  destruct (find_matches (main ++ side) (allProducts st)); handler_step; reflexivity.
Qed.

Lemma colors_after_shoe_detected_witness :
  analyse (Answered (Some (JObj [("isShoe", JBool true); ("sideColors", JArr [JStr "Teal"])])))
    (ready [with_tags ["teal"; "black"]; with_tags ["navy"]])
  = State (JArr [with_tags ["teal"; "black"]; with_tags ["navy"]])
      [with_tags ["teal"; "black"]] "data:image/png;base64,AAAA"
      (JArr [], JArr [JStr "Teal"]) false "" "".
Proof.
  apply (colors_after_shoe_detected
           [("isShoe", JBool true); ("sideColors", JArr [JStr "Teal"])]
           [] [JStr "Teal"]
           (ready [with_tags ["teal"; "black"]; with_tags ["navy"]])).
  - reflexivity.
  - reflexivity.
  - left. split; reflexivity.
  - right. reflexivity.
Defined.

(** ** Properties of the tag construction *)

Section Tags.

Implicit Types (s input : string) (c : ascii).

Lemma filter_Boolean (l : list string) :
  List.filter Boolean l = filter (λ piece, piece ≠ "") l.
Proof.
  induction l as [|x l IH]; [reflexivity|].
  cbn [List.filter]. rewrite filter_cons, IH. unfold Boolean.
  destruct (String.eqb_spec x "") as [->|Hne]; cbn [negb].
  - rewrite decide_False by (intros H; apply H; reflexivity). reflexivity.
  - rewrite decide_True by exact Hne. reflexivity.
Qed.

Lemma split_map_filter_pieces input : Form.split_map_filter input = trimmed_pieces input.
Proof. unfold Form.split_map_filter, trimmed_pieces. apply filter_Boolean. Qed.

Lemma split_without c s : contains c s = false → split c s = [s].
Proof.
  induction s as [|c' s IH]; [reflexivity|].
  cbn [contains split]. intros H. apply orb_false_elim in H as [Hc Hs].
  rewrite Hc, (IH Hs). reflexivity.
Qed.

Lemma white_is_no_comma c : is_white c = true → Ascii.eqb c "," = false.
Proof.
  intros H. destruct (Ascii.eqb_spec c ","%char) as [->|]; [|reflexivity].
  discriminate H.
Qed.

Lemma all_white_no_comma s : all_white s = true → contains "," s = false.
Proof.
  induction s as [|c s IH]; [reflexivity|].
  cbn [all_white contains]. intros H. apply andb_prop in H as [Hc Hs].
  rewrite (white_is_no_comma c Hc), (IH Hs). reflexivity.
Qed.

Lemma trimStart_all_white s : all_white s = true → trimStart s = "".
Proof.
  induction s as [|c s IH]; [reflexivity|].
  cbn [all_white trimStart]. intros H. apply andb_prop in H as [-> Hs]. exact (IH Hs).
Qed.

Lemma pieces_of_white input : all_white input = true → trimmed_pieces input = [].
Proof.
  intros H. unfold trimmed_pieces.
  rewrite (split_without _ _ (all_white_no_comma _ H)).
  cbn [fmap list_fmap]. unfold trim. rewrite (trimStart_all_white _ H). reflexivity.
Qed.

End Tags.

(** C10. When the three required inputs are filled in, the request body
    carries as [colorTags] the trimmed non-empty comma-separated pieces of the
    [mainColors] input followed by those of the [sideColors] input; an input
    that is empty or white space only contributes no tag. *)
Theorem submitted_colorTags (p : Form.newProduct) :
  Boolean (Form.name p) = true →
  Boolean (Form.imageSrc p) = true →
  Boolean (Form.link p) = true →
  ∃ fields, Form.handleProductSubmit p = Some (JObj fields)
    ∧ lookup_field "colorTags" fields
      = Some (JArr (JStr <$> (trimmed_pieces (Form.mainColors p)
                              ++ trimmed_pieces (Form.sideColors p))))
    ∧ (all_white (Form.mainColors p) = true →
       lookup_field "colorTags" fields
       = Some (JArr (JStr <$> trimmed_pieces (Form.sideColors p))))
    ∧ (all_white (Form.sideColors p) = true →
       lookup_field "colorTags" fields
       = Some (JArr (JStr <$> trimmed_pieces (Form.mainColors p)))).
Proof.
  intros Hn Hi Hl. unfold Form.handleProductSubmit. rewrite Hn, Hi, Hl.
  cbn [negb orb]. unfold Form.request_body. cbn zeta.
  eexists. split; [reflexivity|].
  cbn [lookup_field String.eqb Ascii.eqb Bool.eqb].
  rewrite !split_map_filter_pieces. split; [reflexivity|]. split; intros Hw.
  - rewrite (pieces_of_white _ Hw). reflexivity.
  - rewrite (pieces_of_white _ Hw), app_nil_r. reflexivity.
Qed.

Lemma submitted_colorTags_witness :
  ∃ fields,
    Form.handleProductSubmit
      (Form.NewProduct "Runner" "https://img/1.png" "https://shop/1" " Red , ,blue,," "  ")
    = Some (JObj fields)
    ∧ lookup_field "colorTags" fields
      = Some (JArr (JStr <$> (trimmed_pieces " Red , ,blue,," ++ trimmed_pieces "  ")))
    ∧ (all_white " Red , ,blue,," = true →
       lookup_field "colorTags" fields = Some (JArr (JStr <$> trimmed_pieces "  ")))
    ∧ (all_white "  " = true →
       lookup_field "colorTags" fields
       = Some (JArr (JStr <$> trimmed_pieces " Red , ,blue,,"))).
Proof.
  apply (submitted_colorTags
           (Form.NewProduct "Runner" "https://img/1.png" "https://shop/1"
              " Red , ,blue,," "  ")); reflexivity.
Defined.

(** ** Further properties of [handleImageAnalysis] *)

Section Handler.

Implicit Types (x : exchange) (st : state) (catalog : list json).

Lemma find_matches_sublist (colors : list json) catalog out :
  find_matches colors (JArr catalog) = Ok out → sublist out catalog.
Proof.
  unfold find_matches. destruct (map_ call_toLowerCase colors) as [L|e]; [|discriminate].
  rewrite bind_Ok. cbn zeta. cbn [filter_products].
  destruct (3 <=? length L); intros H; apply filter__passes in H as ->;
    apply filter_sublist.
Qed.

Lemma map_lower_throws (items : list json) e :
  map_ call_toLowerCase items = Throw e → e = TypeError.
Proof.
  revert e. induction items as [|v items IH]; intros e; [discriminate|].
  destruct v; cbn [map_ call_toLowerCase]; try (intros [= <-]; reflexivity).
  rewrite bind_Ok. destruct (map_ call_toLowerCase items) as [ys|e'] eqn:E.
  - discriminate.
  - intros [= <-]. apply (IH e' eq_refl).
Qed.

Lemma find_matches_no_array (colors : list json) (products : json) :
  isArray (Some products) = false → find_matches colors products = Throw TypeError.
Proof.
  intros H. unfold find_matches.
  destruct (map_ call_toLowerCase colors) as [L|e] eqn:E.
  - rewrite bind_Ok. cbn zeta. destruct products; try discriminate;
      destruct (3 <=? length L); reflexivity.
  - rewrite (map_lower_throws _ _ E). reflexivity.
Qed.

Lemma settled_error st message :
  message ∈ [msg_format; msg_inconclusive; msg_no_shoe; msg_no_colors; msg_failed] →
  settled st (State (allProducts st) [] (imagePreview st) (JArr [], JArr []) false ""
                message).
Proof.
  intros Hm. exists [], (JArr [], JArr []), message.
  split; [reflexivity|]. split; [reflexivity|]. split; [reflexivity|].
  split; [intros; apply sublist_nil_l | right; exact Hm].
Qed.

Lemma settled_failed st colors :
  settled st (State (allProducts st) [] (imagePreview st) colors false "" msg_failed).
Proof.
  exists [], colors, msg_failed.
  split; [reflexivity|]. split; [reflexivity|]. split; [intros _ H; destruct (H eq_refl)|].
  split; [intros; apply sublist_nil_l | set_solver].
Qed.

Lemma analyse_settled x st :
  Boolean (imagePreview st) = true → settled st (analyse x st).
Proof.
  intros Hp. unfold analyse, handleImageAnalysis, try_catch_finally. rewrite Hp.
  destruct x as [|[payload|]]; handler_step.
  - apply settled_failed.
  - unfold after_parse.
    destruct (inconclusive payload) as [[]|e]; handler_step;
      [apply settled_error; set_solver | | apply settled_failed].
    destruct (get payload "isShoe") as [isShoe|e]; handler_step;
      [|apply settled_failed].
    destruct (not_ isShoe); handler_step; [apply settled_error; set_solver|].
    destruct (destructure payload) as [[m s]|e]; handler_step;
      [|apply settled_failed].
    destruct (both_empty m s) as [[]|e]; handler_step;
      [apply settled_error; set_solver | | apply settled_failed].
    destruct (concat m s) as [colors|e]; handler_step; [|apply settled_failed].
    destruct (find_matches colors (allProducts st)) as [out|e] eqn:Hfind; handler_step;
      [|apply settled_failed].
    exists out, (m, s), "". split; [reflexivity|].
    split; [intros H; destruct (H eq_refl)|]. split; [intros H; destruct (H eq_refl)|].
    split; [|set_solver]. intros catalog Hc. rewrite Hc in Hfind.
    apply (find_matches_sublist _ _ _ Hfind).
  - apply settled_error. set_solver.
Qed.

Lemma analyse_frame x st st' :
  allProducts st = allProducts st' → imagePreview st = imagePreview st' →
  Boolean (imagePreview st) = true → analyse x st = analyse x st'.
Proof.
  destruct st as [ps ms img dc busy note err], st' as [ps' ms' img' dc' busy' note' err'].
  cbn [allProducts imagePreview]. intros <- <- Hp.
  unfold analyse, handleImageAnalysis, try_catch_finally.
  cbn [imagePreview allProducts]. rewrite Hp. handler_step. reflexivity.
Qed.

(** With [isShoe] true, both colour properties absent or arrays, and a
    colour in one of them. *)
Lemma analyse_shoe (fields : list (string * json)) (main side : list json) st :
  Boolean (imagePreview st) = true →
  lookup_field "isShoe" fields = Some (JBool true) →
  field_is_list fields "mainColors" main →
  field_is_list fields "sideColors" side →
  is_nil main && is_nil side = false →
  analyse (Answered (Some (JObj fields))) st
  = match find_matches (main ++ side) (allProducts st) with
    | Ok matches =>
        State (allProducts st) matches (imagePreview st) (JArr main, JArr side)
          false "" ""
    | Throw _ =>
        State (allProducts st) [] (imagePreview st) (JArr main, JArr side)
          false "" msg_failed
    end.
Proof.
  intros Hp Hshoe Hmain Hside Hne.
  assert (Hi : inconclusive (JObj fields) = Ok false).
  { apply (inconclusive_false _ (JBool true)); [reflexivity|]. cbn [get]. rewrite Hshoe.
    reflexivity. }
  assert (Hd : destructure (JObj fields) = Ok (JArr main, JArr side)).
  { unfold destructure. cbn [get]. rewrite !bind_Ok.
    destruct Hmain as [[-> ->]| ->], Hside as [[-> ->]| ->]; reflexivity. }
  assert (Hb : both_empty (JArr main) (JArr side) = Ok false).
  { rewrite <- Hne. unfold both_empty. cbn [length_of]. rewrite bind_Ok.
    destruct main as [|v main]; [|reflexivity]. cbn [is_zero length Z.of_nat Z.eqb].
    rewrite bind_Ok. destruct side; reflexivity. }
  unfold analyse, handleImageAnalysis, try_catch_finally, after_parse.
  rewrite Hp, Hi. cbn [get]. rewrite Hshoe, Hd. handler_step.
  cbn [not_ truthy negb]. handler_step. rewrite Hb. handler_step.
  unfold concat. cbn [spread]. rewrite !bind_Ok. handler_step.
  destruct (find_matches (main ++ side) (allProducts st)); handler_step; reflexivity.
Qed.

End Handler.

(** X1. Once an image is chosen, the handler always ends with the busy flag
    down and the progress message cleared, whatever the service answered,
    and it never changes the catalogue or the image. *)
Theorem analysis_always_settles (x : exchange) (st : state) :
  Boolean (imagePreview st) = true →
  isAnalyzing (analyse x st) = false
  ∧ analysisMessage (analyse x st) = ""
  ∧ allProducts (analyse x st) = allProducts st
  ∧ imagePreview (analyse x st) = imagePreview st.
Proof.
  intros Hp. destruct (analyse_settled x st Hp) as (ms & dc & err & -> & _).
  repeat split.
Qed.

Lemma analysis_always_settles_witness :
  isAnalyzing (analyse Failed (State (JArr []) [] "data:," (JArr [], JArr []) true "busy" "old")) = false
  ∧ analysisMessage (analyse Failed (State (JArr []) [] "data:," (JArr [], JArr []) true "busy" "old")) = ""
  ∧ allProducts (analyse Failed (State (JArr []) [] "data:," (JArr [], JArr []) true "busy" "old")) = JArr []
  ∧ imagePreview (analyse Failed (State (JArr []) [] "data:," (JArr [], JArr []) true "busy" "old")) = "data:,".
Proof.
  apply (analysis_always_settles Failed
           (State (JArr []) [] "data:," (JArr [], JArr []) true "busy" "old")).
  reflexivity.
Defined.

(** X2. An error and a result never show together: when the handler ends
    with an error message there are no matches, and unless the message is the
    general one (thrown after the colours were recorded) there are no
    detected colours either. *)
Theorem error_excludes_matches (x : exchange) (st : state) :
  Boolean (imagePreview st) = true →
  error (analyse x st) ≠ "" →
  matchingProducts (analyse x st) = []
  ∧ (error (analyse x st) ≠ msg_failed →
     detectedColors (analyse x st) = (JArr [], JArr [])).
Proof.
  intros Hp. destruct (analyse_settled x st Hp) as (ms & dc & err & -> & H1 & H2 & _).
  cbn [error matchingProducts detectedColors]. intros He. split; [apply H1, He|].
  intros Hf. apply H2; assumption.
Qed.

Lemma error_excludes_matches_witness :
  matchingProducts
    (analyse (Answered (Some (JObj [("isShoe", JBool false); ("mainColors", JArr [JStr "red"])])))
       (ready [with_tags ["red"]])) = []
  ∧ (error
       (analyse (Answered (Some (JObj [("isShoe", JBool false); ("mainColors", JArr [JStr "red"])])))
          (ready [with_tags ["red"]])) ≠ msg_failed →
     detectedColors
       (analyse (Answered (Some (JObj [("isShoe", JBool false); ("mainColors", JArr [JStr "red"])])))
          (ready [with_tags ["red"]])) = (JArr [], JArr [])).
Proof.
  apply (error_excludes_matches
           (Answered (Some (JObj [("isShoe", JBool false); ("mainColors", JArr [JStr "red"])])))
           (ready [with_tags ["red"]])).
  - reflexivity.
  - vm_compute. discriminate.
Defined.

(** X3. The matches shown are always a subsequence of the loaded catalogue:
    the handler invents no product and keeps the catalogue order. *)
Theorem matches_come_from_catalog (x : exchange) (st : state) (catalog : list json) :
  Boolean (imagePreview st) = true →
  allProducts st = JArr catalog →
  sublist (matchingProducts (analyse x st)) catalog.
Proof.
  intros Hp Hc.
  destruct (analyse_settled x st Hp) as (ms & dc & err & -> & _ & _ & H & _).
  apply H, Hc.
Qed.

Lemma matches_come_from_catalog_witness :
  sublist
    (matchingProducts
       (analyse (Answered (Some (JObj [("isShoe", JBool true); ("mainColors", JArr [JStr "Navy"])])))
          (ready [with_tags ["teal"]; with_tags ["navy"; "white"]])))
    [with_tags ["teal"]; with_tags ["navy"; "white"]].
Proof.
  apply (matches_come_from_catalog
           (Answered (Some (JObj [("isShoe", JBool true); ("mainColors", JArr [JStr "Navy"])])))
           (ready [with_tags ["teal"]; with_tags ["navy"; "white"]])
           [with_tags ["teal"]; with_tags ["navy"; "white"]]); reflexivity.
Defined.

(** X4. Each run replaces what the previous one left: the state after the
    handler depends on the state before only through the catalogue and the
    image, so running it again after any other run gives the same state as
    running it at once. *)
Theorem analysis_forgets_previous_run (x y : exchange) (st st' : state) :
  Boolean (imagePreview st) = true →
  (allProducts st = allProducts st' → imagePreview st = imagePreview st' →
   analyse x st = analyse x st')
  ∧ analyse x (analyse y st) = analyse x st.
Proof.
  intros Hp. split.
  - intros Hc Hi. apply analyse_frame; assumption.
  - destruct (analyse_settled y st Hp) as (ms & dc & err & -> & _).
    apply analyse_frame; [reflexivity | reflexivity | exact Hp].
Qed.

Lemma analysis_forgets_previous_run_witness :
  analyse (Answered None)
    (analyse (Answered (Some (JObj [("isShoe", JBool true); ("mainColors", JArr [JStr "red"])])))
       (ready [with_tags ["red"]]))
  = analyse (Answered None) (ready [with_tags ["red"]]).
Proof.
  apply (proj2 (analysis_forgets_previous_run (Answered None)
                  (Answered (Some (JObj [("isShoe", JBool true);
                                         ("mainColors", JArr [JStr "red"])])))
                  (ready [with_tags ["red"]]) (ready []) eq_refl)).
Defined.

(** X5. When the answer carries a falsy [isShoe] ([false], [null], [0] or
    [""]), the handler ends with the no-shoe message; the colours of the
    answer are not recorded and the catalogue is not matched. *)
Theorem no_shoe_stops_before_matching (payload v : json) (st : state) :
  Boolean (imagePreview st) = true →
  truthy payload = true → get payload "isShoe" = Ok (Some v) → truthy v = false →
  analyse (Answered (Some payload)) st
  = State (allProducts st) [] (imagePreview st) (JArr [], JArr []) false "" msg_no_shoe.
Proof.
  intros Hp Ht Hg Hv. pose proof (inconclusive_false _ _ Ht Hg) as Hi.
  unfold analyse, handleImageAnalysis, try_catch_finally, after_parse.
  rewrite Hp, Hi, Hg. handler_step. cbn [not_]. rewrite Hv. handler_step. reflexivity.
Qed.

Lemma no_shoe_stops_before_matching_witness :
  analyse (Answered (Some (JObj [("isShoe", JBool false); ("mainColors", JArr [JStr "red"])])))
    (ready [with_tags ["red"]])
  = State (JArr [with_tags ["red"]]) [] "data:image/png;base64,AAAA" (JArr [], JArr [])
      false "" msg_no_shoe.
Proof.
  apply (no_shoe_stops_before_matching
           (JObj [("isShoe", JBool false); ("mainColors", JArr [JStr "red"])])
           (JBool false) (ready [with_tags ["red"]])); reflexivity.
Defined.

(** X6. A failed exchange with the service ends with the general failure
    message and an answer that does not parse with the format message, both
    with nothing recorded; the five error messages are pairwise distinct and
    none is empty. *)
Theorem failures_have_their_own_message (st : state) :
  Boolean (imagePreview st) = true →
  analyse Failed st
  = State (allProducts st) [] (imagePreview st) (JArr [], JArr []) false "" msg_failed
  ∧ analyse (Answered None) st
    = State (allProducts st) [] (imagePreview st) (JArr [], JArr []) false "" msg_format
  ∧ NoDup [""; msg_format; msg_inconclusive; msg_no_shoe; msg_no_colors; msg_failed].
Proof.
  intros Hp. unfold analyse, handleImageAnalysis, try_catch_finally. rewrite Hp.
  handler_step. split; [reflexivity|]. split; [reflexivity|].
  apply (bool_decide_unpack _). vm_compute. exact I.
Qed.

Lemma failures_have_their_own_message_witness :
  analyse Failed (ready [with_tags ["red"]])
  = State (JArr [with_tags ["red"]]) [] "data:image/png;base64,AAAA" (JArr [], JArr [])
      false "" msg_failed.
Proof.
  apply (proj1 (failures_have_their_own_message (ready [with_tags ["red"]]) eq_refl)).
Defined.

(** ** What the matching does not depend on *)

Section Insensitive.

Implicit Types (D tags : list string) (P : json) (catalog : list json).

Lemma is_match_test D P : is_match D P ↔ inclusion_test D P = Ok true.
Proof.
  unfold is_match. rewrite find_matches_strings. cbn [filter_].
  destruct (inclusion_test D P) as [[]|e]; cbn; split; congruence.
Qed.

Lemma is_match_broad D tags P :
  tagged tags P → 3 ≤ length D →
  (is_match D P ↔ 3 ≤ length (filter (λ tag, tag ∈ new_Set (toLowerCase <$> D))
                                 (toLowerCase <$> tags))).
Proof.
  intros Htag Hlen. rewrite is_match_test. unfold inclusion_test. cbn zeta.
  rewrite length_fmap. apply Nat.leb_le in Hlen as ->.
  rewrite (rule1_tagged _ _ _ Htag), filter_lowered.
  split; [intros [= H]; apply Nat.leb_le, H | intros H; f_equal; apply Nat.leb_le, H].
Qed.

Lemma is_match_exact D tags P :
  tagged tags P → length D < 3 →
  (is_match D P ↔ ∀ color, color ∈ toLowerCase <$> D →
                            color ∈ new_Set (toLowerCase <$> tags)).
Proof.
  intros Htag Hlen. rewrite is_match_test. unfold inclusion_test. cbn zeta.
  rewrite length_fmap. apply Nat.leb_gt in Hlen as ->.
  rewrite (rule2_tagged _ _ _ Htag), <- forallb_has.
  split; [intros [= H]; exact H | intros H; f_equal; exact H].
Qed.

Lemma filter__ext (f g : json → result bool) catalog :
  (∀ P, f P = g P) → filter_ f catalog = filter_ g catalog.
Proof.
  intros H. induction catalog as [|P catalog IH]; [reflexivity|].
  cbn [filter_]. rewrite H, IH. reflexivity.
Qed.

Lemma forallb_same_set (S : gset string) (L L' : list string) :
  new_Set L = new_Set L' →
  forallb (fun color => has S color) L = forallb (fun color => has S color) L'.
Proof.
  intros HL. apply eq_true_iff_eq. rewrite !forallb_has. unfold new_Set in HL.
  split; intros H color Hc; apply H.
  - apply (elem_of_list_to_set (C := gset string)). rewrite HL.
    apply elem_of_list_to_set, Hc.
  - apply (elem_of_list_to_set (C := gset string)). rewrite <- HL.
    apply elem_of_list_to_set, Hc.
Qed.

Lemma rule2_same_set (L L' : list string) P :
  new_Set L = new_Set L' → rule2 L P = rule2 L' P.
Proof.
  intros HL. unfold rule2. destruct (get P "colorTags") as [v|e]; [|reflexivity].
  rewrite !bind_Ok. destruct (not_ v || negb (isArray v)); [reflexivity|].
  destruct (array_map v call_toLowerCase) as [lowered|e]; [|reflexivity].
  rewrite !bind_Ok, (forallb_same_set _ _ _ HL). reflexivity.
Qed.

Lemma inclusion_test_same_set D D' P :
  (3 <=? length D) = (3 <=? length D') →
  new_Set (toLowerCase <$> D) = new_Set (toLowerCase <$> D') →
  inclusion_test D P = inclusion_test D' P.
Proof.
  intros Hlen Hset. unfold inclusion_test. cbn zeta.
  rewrite !length_fmap, <- Hlen. destruct (3 <=? length D).
  - rewrite Hset. reflexivity.
  - apply rule2_same_set, Hset.
Qed.

Lemma find_matches_perm D D' catalog :
  D ≡ₚ D' →
  find_matches (JStr <$> D) (JArr catalog) = find_matches (JStr <$> D') (JArr catalog).
Proof.
  intros HD. rewrite !find_matches_strings. apply filter__ext. intros P.
  apply inclusion_test_same_set.
  - rewrite (Permutation_length HD). reflexivity.
  - unfold new_Set. apply list_to_set_perm_L. rewrite HD. reflexivity.
Qed.

End Insensitive.

(** X7. The matches depend on the detected list only through the set of its
    lower-cased names and through whether it has at least three entries:
    order and repetition matter for nothing else. *)
Theorem matches_depend_on_set_and_threshold (D D' : list string) (catalog : list json) :
  (3 <=? length D) = (3 <=? length D') →
  new_Set (toLowerCase <$> D) = new_Set (toLowerCase <$> D') →
  find_matches (JStr <$> D) (JArr catalog) = find_matches (JStr <$> D') (JArr catalog).
Proof.
  intros Hlen Hset. rewrite !find_matches_strings. apply filter__ext. intros P.
  apply inclusion_test_same_set; assumption.
Qed.

Lemma matches_depend_on_set_and_threshold_witness :
  find_matches (JStr <$> ["red"; "Red"; "blue"]) (JArr [with_tags ["red"; "blue"; "RED"]])
  = find_matches (JStr <$> ["BLUE"; "blue"; "red"; "blue"])
      (JArr [with_tags ["red"; "blue"; "RED"]]).
Proof.
  apply (matches_depend_on_set_and_threshold ["red"; "Red"; "blue"]
           ["BLUE"; "blue"; "red"; "blue"] [with_tags ["red"; "blue"; "RED"]]).
  - reflexivity.
  - vm_compute. reflexivity.
Defined.

(** X8. Which colours the model calls main and which side makes no
    difference to the matching: swapping the two lists gives the same
    outcome, on any catalogue value. *)
Theorem main_and_side_are_interchangeable (main side : list string) (products : json) :
  (colors ← concat (JArr (JStr <$> main)) (JArr (JStr <$> side));
   find_matches colors products)
  = (colors ← concat (JArr (JStr <$> side)) (JArr (JStr <$> main));
     find_matches colors products).
Proof.
  unfold concat. cbn [spread]. rewrite !bind_Ok, <- !fmap_app.
  destruct products as [| | | | catalog |];
    try (rewrite !find_matches_no_array by reflexivity; reflexivity).
  apply find_matches_perm, Permutation_app_comm.
Qed.

(** X9. Matching is blind to letter case, of the detected names and of the
    tags alike. *)
Theorem matching_ignores_case (D D' tags tags' : list string) (P P' : json) :
  toLowerCase <$> D = toLowerCase <$> D' →
  toLowerCase <$> tags = toLowerCase <$> tags' →
  tagged tags P → tagged tags' P' →
  (∀ products, find_matches (JStr <$> D) products = find_matches (JStr <$> D') products)
  ∧ (is_match D P ↔ is_match D' P').
Proof.
  intros HD Ht HP HP'. split.
  - intros products. unfold find_matches. rewrite !map_lower_strings, !bind_Ok, HD.
    reflexivity.
  - rewrite !is_match_test. unfold inclusion_test. cbn zeta. rewrite HD.
    destruct (3 <=? length (toLowerCase <$> D')).
    + rewrite (rule1_tagged _ _ _ HP), (rule1_tagged _ _ _ HP').
      rewrite <- !filter_lowered, Ht. reflexivity.
    + rewrite (rule2_tagged _ _ _ HP), (rule2_tagged _ _ _ HP'), Ht. reflexivity.
Qed.

Lemma matching_ignores_case_witness :
  (∀ products, find_matches (JStr <$> ["Red"; "NAVY"]) products
               = find_matches (JStr <$> ["red"; "navy"]) products)
  ∧ (is_match ["Red"; "NAVY"] (with_tags ["RED"; "Navy"; "white"])
     ↔ is_match ["red"; "navy"] (with_tags ["red"; "navy"; "White"])).
Proof.
  apply (matching_ignores_case ["Red"; "NAVY"] ["red"; "navy"]
           ["RED"; "Navy"; "white"] ["red"; "navy"; "White"]); reflexivity.
Defined.

(** X10. A product that matches keeps matching when tags are added to it or
    its tags are reordered: under both rules the test is monotone in the
    multiset of tags. *)
Theorem more_tags_keep_the_match (D tags tags' : list string) (P P' : json) :
  tagged tags P → tagged tags' P' → tags ⊆+ tags' →
  is_match D P → is_match D P'.
Proof.
  intros HP HP' Hsub.
  assert (Hl : toLowerCase <$> tags ⊆+ toLowerCase <$> tags') by (rewrite Hsub; reflexivity).
  destruct (le_lt_dec 3 (length D)) as [Hlen|Hlen].
  - rewrite (is_match_broad D tags P HP Hlen), (is_match_broad D tags' P' HP' Hlen).
    intros H. etrans; [exact H|]. apply submseteq_length.
    apply submseteq_Permutation in Hl as [k Hk]. rewrite Hk, filter_app.
    apply submseteq_inserts_r. reflexivity.
  - rewrite (is_match_exact D tags P HP Hlen), (is_match_exact D tags' P' HP' Hlen).
    intros H color Hc. specialize (H color Hc). unfold new_Set in *.
    apply elem_of_list_to_set. apply elem_of_list_to_set in H.
    apply (elem_of_submseteq _ _ _ H Hl).
Qed.

Lemma more_tags_keep_the_match_witness :
  is_match ["Red"] (with_tags ["white"; "red"; "black"]).
Proof.
  apply (more_tags_keep_the_match ["Red"] ["red"] ["white"; "red"; "black"]
           (with_tags ["red"]) (with_tags ["white"; "red"; "black"])).
  - reflexivity.
  - reflexivity.
  - apply submseteq_cons, submseteq_skip, submseteq_nil_l.
  - vm_compute. reflexivity.
Defined.

(** X11. Once three or more colours are detected, a product with fewer than
    three tags cannot match, however well its tags agree with the colours. *)
Theorem broad_rule_needs_three_tags (D tags : list string) (P : json) :
  tagged tags P → 3 ≤ length D → length tags < 3 → ¬ is_match D P.
Proof.
  intros HP Hlen Ht. rewrite (is_match_broad D tags P HP Hlen). intros H.
  pose proof (length_filter (λ tag, tag ∈ new_Set (toLowerCase <$> D))
                (toLowerCase <$> tags)) as Hf.
  rewrite length_fmap in Hf. lia.
Qed.

Lemma broad_rule_needs_three_tags_witness :
  ¬ is_match ["black"; "white"; "red"] (with_tags ["black"; "white"]).
Proof.
  apply (broad_rule_needs_three_tags ["black"; "white"; "red"] ["black"; "white"]
           (with_tags ["black"; "white"])).
  - reflexivity.
  - cbn. lia.
  - cbn. lia.
Defined.

(** ** Further properties of the tag construction *)

Section Strings.

Implicit Types (s t : string) (c : ascii).

Lemma head_white_trimStart s : head_white (trimStart s) = false.
Proof.
  induction s as [|c s IH]; [reflexivity|]. cbn [trimStart].
  destruct (is_white c) eqn:E; [exact IH | exact E].
Qed.

Lemma trimStart_fixed s : head_white s = false → trimStart s = s.
Proof. destruct s as [|c s]; [reflexivity|]. cbn. intros ->. reflexivity. Qed.

Lemma head_white_trimEnd s : head_white s = false → head_white (trimEnd s) = false.
Proof.
  destruct s as [|c s]; [reflexivity|]. cbn [head_white trimEnd]. intros Hc.
  destruct (trimEnd s); [rewrite Hc|]; exact Hc.
Qed.

Lemma last_white_trimEnd s : last_white (trimEnd s) = false.
Proof.
  induction s as [|c s IH]; [reflexivity|]. cbn [trimEnd].
  destruct (trimEnd s) as [|d k] eqn:E.
  - destruct (is_white c) eqn:Ec; [reflexivity | exact Ec].
  - exact IH.
Qed.

Lemma trimEnd_fixed s : last_white s = false → trimEnd s = s.
Proof.
  induction s as [|c s IH]; [reflexivity|]. cbn [trimEnd].
  destruct s as [|d k].
  - cbn. intros ->. reflexivity.
  - intros H. change (last_white (String d k) = false) in H. rewrite (IH H). reflexivity.
Qed.

Lemma trim_fixed s : head_white s = false → last_white s = false → trim s = s.
Proof.
  intros Hh Hl. unfold trim. rewrite (trimStart_fixed s Hh). apply trimEnd_fixed, Hl.
Qed.

Lemma trim_edges s : head_white (trim s) = false ∧ last_white (trim s) = false.
Proof.
  unfold trim. split;
    [apply head_white_trimEnd, head_white_trimStart | apply last_white_trimEnd].
Qed.

Lemma contains_trimStart c s : contains c s = false → contains c (trimStart s) = false.
Proof.
  induction s as [|d s IH]; [reflexivity|]. cbn [trimStart]. intros H.
  destruct (is_white d); [|exact H]. cbn [contains] in H.
  apply orb_false_elim in H as [_ H]. exact (IH H).
Qed.

Lemma contains_trimEnd c s : contains c s = false → contains c (trimEnd s) = false.
Proof.
  induction s as [|d s IH]; [reflexivity|]. cbn [contains trimEnd]. intros H.
  apply orb_false_elim in H as [Hd H]. specialize (IH H).
  destruct (trimEnd s) as [|e k].
  - destruct (is_white d); [reflexivity|]. cbn [contains]. rewrite Hd. reflexivity.
  - cbn [contains] in *. rewrite Hd. exact IH.
Qed.

Lemma contains_trim c s : contains c s = false → contains c (trim s) = false.
Proof. intros H. apply contains_trimEnd, contains_trimStart, H. Qed.

Lemma split_pieces c s : Forall (λ piece, contains c piece = false) (split c s).
Proof.
  induction s as [|d s IH]; [repeat constructor|]. cbn [split].
  destruct (Ascii.eqb d c) eqn:E.
  - constructor; [reflexivity | exact IH].
  - destruct (split c s) as [|piece pieces].
    + repeat constructor. cbn [contains]. rewrite E. reflexivity.
    + inversion IH as [|? ? Hp Hps]; subst. constructor; [|exact Hps].
      cbn [contains]. rewrite E. exact Hp.
Qed.

Lemma split_append c piece rest :
  contains c piece = false →
  split c (piece +:+ String c rest) = piece :: split c rest.
Proof.
  induction piece as [|d piece IH].
  - intros _. change (split c (String c rest) = "" :: split c rest).
    cbn [split]. rewrite Ascii.eqb_refl. reflexivity.
  - cbn [contains]. intros H. apply orb_false_elim in H as [Hd H].
    change (split c (String d (piece +:+ String c rest)) = String d piece :: split c rest).
    cbn [split]. rewrite Hd, (IH H). reflexivity.
Qed.

Lemma split_concat (tags : list string) :
  tags ≠ [] → Forall (λ tag, contains "," tag = false) tags →
  split "," (String.concat "," tags) = tags.
Proof.
  induction tags as [|t tags IH]; [congruence|]. intros _ Hall.
  inversion Hall as [|? ? Ht Hts]; subst. destruct tags as [|u tags].
  - cbn [String.concat]. apply split_without, Ht.
  - change (String.concat "," (t :: u :: tags))
      with (t +:+ String "," (String.concat "," (u :: tags))).
    rewrite (split_append _ _ _ Ht), IH; [reflexivity | discriminate | exact Hts].
Qed.

Lemma pieces_clean (input : string) : Forall clean (Form.split_map_filter input).
Proof.
  unfold Form.split_map_filter. apply Forall_forall. intros tag Hin.
  apply list_elem_of_In, filter_In in Hin as [Hin Hb].
  apply in_map_iff in Hin as (piece & <- & Hp).
  pose proof (split_pieces "," input) as Hall. rewrite Forall_forall in Hall.
  destruct (trim_edges piece) as [Hh Hl].
  split; [|split; [|split]].
  - intros E. rewrite E in Hb. discriminate.
  - apply contains_trim, Hall, list_elem_of_In, Hp.
  - exact Hh.
  - exact Hl.
Qed.

Lemma clean_round_trip (tags : list string) :
  Forall clean tags → Form.split_map_filter (String.concat "," tags) = tags.
Proof.
  intros Hall. unfold Form.split_map_filter. destruct tags as [|t tags]; [reflexivity|].
  rewrite split_concat; [|discriminate|].
  2:{ eapply Forall_impl; [exact Hall|]. intros tag (_ & H & _). exact H. }
  induction Hall as [|tag rest (Hne & _ & Hh & Hl) _ IH]; [reflexivity|].
  cbn [List.map List.filter]. rewrite (trim_fixed tag Hh Hl).
  unfold Boolean at 1. destruct (String.eqb_spec tag ""); [contradiction|].
  cbn [negb]. rewrite IH. reflexivity.
Qed.

End Strings.

(** X12. Every tag that is sent to the catalogue store is non-empty, holds
    no comma and has no white space at either end. *)
Theorem submitted_tags_are_clean (p : Form.newProduct) (body : json) :
  Form.handleProductSubmit p = Some body →
  ∃ tags, get body "colorTags" = Ok (Some (JArr (JStr <$> tags))) ∧ Forall clean tags.
Proof.
  unfold Form.handleProductSubmit. destruct (_ || _); [discriminate|].
  intros [= <-]. eexists. split; [reflexivity|].
  apply Forall_app. split; apply pieces_clean.
Qed.

Lemma submitted_tags_are_clean_witness :
  ∃ tags,
    get (Form.request_body (Form.NewProduct "Runner" "i.png" "shop" " Off White ,, navy " ",red"))
      "colorTags"
    = Ok (Some (JArr (JStr <$> tags))) ∧ Forall clean tags.
Proof.
  apply (submitted_tags_are_clean
           (Form.NewProduct "Runner" "i.png" "shop" " Off White ,, navy " ",red")).
  reflexivity.
Defined.

(** X13. Tags read from an input survive being typed back in: joining them
    with commas and running the same split, trim and filter returns them
    unchanged. *)
Theorem tags_survive_reentry (input : string) :
  Form.split_map_filter (String.concat "," (Form.split_map_filter input))
  = Form.split_map_filter input.
Proof. apply clean_round_trip, pieces_clean. Qed.

(** ** Properties of the other handlers *)

(** X14. The submit handler sends nothing and changes nothing exactly when
    one of name, image URL and link is empty; the colour inputs are
    optional. *)
Theorem submit_needs_name_image_link (stored : Page.saving) (answer : Page.listing)
    (pg : Page.page) :
  (Form.handleProductSubmit (Page.newProduct pg) = None
   ↔ Form.name (Page.newProduct pg) = "" ∨ Form.imageSrc (Page.newProduct pg) = ""
     ∨ Form.link (Page.newProduct pg) = "")
  ∧ (Form.handleProductSubmit (Page.newProduct pg) = None →
     Page.handleProductSubmit stored answer pg = (pg, None)).
Proof.
  split.
  - unfold Form.handleProductSubmit, Boolean.
    destruct (String.eqb_spec (Form.name (Page.newProduct pg)) "") as [->|Hn];
    destruct (String.eqb_spec (Form.imageSrc (Page.newProduct pg)) "") as [->|Hi];
    destruct (String.eqb_spec (Form.link (Page.newProduct pg)) "") as [->|Hl];
      cbn [negb orb]; split; try tauto; try discriminate.
  - intros H. unfold Page.handleProductSubmit. rewrite H. reflexivity.
Qed.

Lemma submit_needs_name_image_link_witness :
  Page.handleProductSubmit Page.Saved (Page.Listed (JArr []))
    (Page.Page (ready []) false true (Form.NewProduct "Runner" "" "shop" "red" "") false)
  = (Page.Page (ready []) false true (Form.NewProduct "Runner" "" "shop" "red" "") false, None).
Proof.
  apply (proj2 (submit_needs_name_image_link Page.Saved (Page.Listed (JArr []))
                  (Page.Page (ready []) false true
                     (Form.NewProduct "Runner" "" "shop" "red" "") false))).
  reflexivity.
Defined.

(** X15. When the request is sent, the submitting flag is down at the end.
    A refused save keeps what was typed, leaves the form and the catalogue
    as they were and shows the save message; a save that went through blanks
    the form, hides it and reloads the catalogue. *)
Theorem submit_outcomes (stored : Page.saving) (answer : Page.listing) (pg : Page.page)
    (body : json) :
  Form.handleProductSubmit (Page.newProduct pg) = Some body →
  snd (Page.handleProductSubmit stored answer pg) = Some body
  ∧ Page.isSubmitting (fst (Page.handleProductSubmit stored answer pg)) = false
  ∧ (stored = Page.Refused →
     Page.newProduct (fst (Page.handleProductSubmit stored answer pg)) = Page.newProduct pg
     ∧ Page.showAddProductForm (fst (Page.handleProductSubmit stored answer pg))
       = Page.showAddProductForm pg
     ∧ allProducts (Page.analysis (fst (Page.handleProductSubmit stored answer pg)))
       = allProducts (Page.analysis pg)
     ∧ error (Page.analysis (fst (Page.handleProductSubmit stored answer pg)))
       = Page.msg_save)
  ∧ (stored = Page.Saved →
     Page.newProduct (fst (Page.handleProductSubmit stored answer pg)) = Page.blank
     ∧ Page.showAddProductForm (fst (Page.handleProductSubmit stored answer pg)) = false
     ∧ fst (Page.handleProductSubmit stored answer pg)
       = Page.fetchAllProducts answer
           (Page.Page
              (State (allProducts (Page.analysis pg)) (matchingProducts (Page.analysis pg))
                 (imagePreview (Page.analysis pg)) (detectedColors (Page.analysis pg))
                 (isAnalyzing (Page.analysis pg)) (analysisMessage (Page.analysis pg)) "")
              (Page.isFetching pg) false Page.blank false)).
Proof.
  intros Hb. unfold Page.handleProductSubmit. rewrite Hb. cbn zeta.
  destruct stored, answer; repeat split; try discriminate.
Qed.

Lemma submit_outcomes_witness :
  ∃ body,
    snd (Page.handleProductSubmit Page.Refused Page.Unreachable
           (Page.Page (ready [with_tags ["red"]]) false true
              (Form.NewProduct "Runner" "i.png" "shop" "red" "") false)) = Some body
    ∧ Page.newProduct
        (fst (Page.handleProductSubmit Page.Refused Page.Unreachable
                (Page.Page (ready [with_tags ["red"]]) false true
                   (Form.NewProduct "Runner" "i.png" "shop" "red" "") false)))
      = Form.NewProduct "Runner" "i.png" "shop" "red" "".
Proof.
  eexists.
  pose proof (submit_outcomes Page.Refused Page.Unreachable
                (Page.Page (ready [with_tags ["red"]]) false true
                   (Form.NewProduct "Runner" "i.png" "shop" "red" "") false)
                _ eq_refl) as (H1 & _ & H2 & _).
  split; [exact H1 | exact (proj1 (H2 eq_refl))].
Defined.

(** X16. The catalogue request always ends the loading state.  A failure
    empties the catalogue and shows the catalogue message; a listing replaces
    the catalogue by whatever JSON came back and leaves the error as it was.
    The image, the detected colours, the matches and the form are not
    touched. *)
Theorem fetch_outcomes (answer : Page.listing) (pg : Page.page) :
  Page.isFetching (Page.fetchAllProducts answer pg) = false
  ∧ (answer = Page.Unreachable →
     allProducts (Page.analysis (Page.fetchAllProducts answer pg)) = JArr []
     ∧ error (Page.analysis (Page.fetchAllProducts answer pg)) = Page.msg_catalog)
  ∧ (∀ data, answer = Page.Listed data →
     allProducts (Page.analysis (Page.fetchAllProducts answer pg)) = data
     ∧ error (Page.analysis (Page.fetchAllProducts answer pg)) = error (Page.analysis pg))
  ∧ matchingProducts (Page.analysis (Page.fetchAllProducts answer pg))
    = matchingProducts (Page.analysis pg)
  ∧ detectedColors (Page.analysis (Page.fetchAllProducts answer pg))
    = detectedColors (Page.analysis pg)
  ∧ imagePreview (Page.analysis (Page.fetchAllProducts answer pg))
    = imagePreview (Page.analysis pg)
  ∧ Page.newProduct (Page.fetchAllProducts answer pg) = Page.newProduct pg.
Proof.
  destruct answer as [|data].
  - repeat split; try discriminate.
  - repeat split; try discriminate.
    match goal with H : Page.Listed _ = Page.Listed _ |- _ => injection H as <- end.
    reflexivity.
Qed.

Lemma fetch_outcomes_witness :
  allProducts (Page.analysis (Page.fetchAllProducts Page.Unreachable
                                (page_of (ready [with_tags ["red"]])))) = JArr []
  ∧ error (Page.analysis (Page.fetchAllProducts Page.Unreachable
                            (page_of (ready [with_tags ["red"]])))) = Page.msg_catalog.
Proof.
  apply (proj1 (proj2 (fetch_outcomes Page.Unreachable (page_of (ready [with_tags ["red"]]))))).
  reflexivity.
Defined.

(** X17. After a failed catalogue request no analysis finds a match, whatever
    the service answers. *)
Theorem no_match_after_failed_fetch (x : exchange) (pg : Page.page) :
  Boolean (imagePreview (Page.analysis pg)) = true →
  matchingProducts
    (Page.analysis (Page.handleImageAnalysis x (Page.fetchAllProducts Page.Unreachable pg)))
  = [].
Proof.
  intros Hp.
  destruct (analyse_settled x (Page.analysis (Page.fetchAllProducts Page.Unreachable pg)) Hp)
    as (ms & dc & err & E & _ & _ & H & _).
  change (matchingProducts
            (analyse x (Page.analysis (Page.fetchAllProducts Page.Unreachable pg))) = []).
  rewrite E. cbn [matchingProducts]. apply sublist_nil_r, (H [] eq_refl).
Qed.

Lemma no_match_after_failed_fetch_witness :
  matchingProducts
    (Page.analysis
       (Page.handleImageAnalysis
          (Answered (Some (JObj [("isShoe", JBool true); ("mainColors", JArr [JStr "red"])])))
          (Page.fetchAllProducts Page.Unreachable (page_of (ready [with_tags ["red"]])))))
  = [].
Proof.
  apply (no_match_after_failed_fetch
           (Answered (Some (JObj [("isShoe", JBool true); ("mainColors", JArr [JStr "red"])])))
           (page_of (ready [with_tags ["red"]]))).
  reflexivity.
Defined.

(** X18. The listing is stored unchecked: when the store answers with JSON
    that is not an array, an analysis that detects colours records them and
    then fails with the general message, without matches. *)
Theorem listing_that_is_no_array (data : json) (fields : list (string * json))
    (main side : list json) (pg : Page.page) :
  isArray (Some data) = false →
  Boolean (imagePreview (Page.analysis pg)) = true →
  lookup_field "isShoe" fields = Some (JBool true) →
  field_is_list fields "mainColors" main →
  field_is_list fields "sideColors" side →
  is_nil main && is_nil side = false →
  Page.analysis (Page.handleImageAnalysis (Answered (Some (JObj fields)))
                   (Page.fetchAllProducts (Page.Listed data) pg))
  = State data [] (imagePreview (Page.analysis pg)) (JArr main, JArr side) false ""
      msg_failed.
Proof.
  intros Hd Hp Hshoe Hmain Hside Hne.
  unfold Page.handleImageAnalysis, Page.on_analysis. cbn [Page.analysis].
  rewrite (analyse_shoe fields main side
             (Page.analysis (Page.fetchAllProducts (Page.Listed data) pg))
             Hp Hshoe Hmain Hside Hne).
  change (allProducts (Page.analysis (Page.fetchAllProducts (Page.Listed data) pg)))
    with data.
  change (imagePreview (Page.analysis (Page.fetchAllProducts (Page.Listed data) pg)))
    with (imagePreview (Page.analysis pg)).
  rewrite (find_matches_no_array _ _ Hd). reflexivity.
Qed.

Lemma listing_that_is_no_array_witness :
  Page.analysis
    (Page.handleImageAnalysis
       (Answered (Some (JObj [("isShoe", JBool true); ("mainColors", JArr [JStr "red"])])))
       (Page.fetchAllProducts (Page.Listed (JObj [("message", JStr "Not found")]))
          (page_of (ready []))))
  = State (JObj [("message", JStr "Not found")]) [] "data:image/png;base64,AAAA"
      (JArr [JStr "red"], JArr []) false "" msg_failed.
Proof.
  apply (listing_that_is_no_array (JObj [("message", JStr "Not found")])
           [("isShoe", JBool true); ("mainColors", JArr [JStr "red"])]
           [JStr "red"] [] (page_of (ready []))).
  - reflexivity.
  - reflexivity.
  - reflexivity.
  - right. reflexivity.
  - left. split; reflexivity.
  - reflexivity.
Defined.

(** X19. After a reset there is no image, so the analysis handler leaves the
    page as it is, whatever the service would have answered; resetting twice
    is resetting once, and the catalogue and the form are kept. *)
Theorem reset_disarms_analysis (x : exchange) (pg : Page.page) :
  Page.handleImageAnalysis x (Page.handleReset pg) = Page.handleReset pg
  ∧ Page.handleReset (Page.handleReset pg) = Page.handleReset pg
  ∧ allProducts (Page.analysis (Page.handleReset pg)) = allProducts (Page.analysis pg)
  ∧ Page.newProduct (Page.handleReset pg) = Page.newProduct pg.
Proof. repeat split. Qed.

(** X20. Choosing a file drops the previous colours, matches and error, and
    an analysis that follows is the analysis of the new image on the
    catalogue, with nothing of the earlier state in it. *)
Theorem new_image_starts_afresh (file : option string) (x : exchange) (pg : Page.page) :
  matchingProducts (Page.analysis (Page.handleImageChange file pg)) = []
  ∧ detectedColors (Page.analysis (Page.handleImageChange file pg)) = (JArr [], JArr [])
  ∧ error (Page.analysis (Page.handleImageChange file pg)) = ""
  ∧ imagePreview (Page.analysis (Page.handleImageChange file pg)) = default "" file
  ∧ (∀ result, file = Some result → Boolean result = true →
     Page.analysis (Page.handleImageAnalysis x (Page.handleImageChange file pg))
     = analyse x (State (allProducts (Page.analysis pg)) [] result (JArr [], JArr [])
                    false "" "")).
Proof.
  destruct file as [result|]; (repeat split; try discriminate).
  intros ? [= <-] Hp. apply analyse_frame; [reflexivity | reflexivity | exact Hp].
Qed.

Lemma new_image_starts_afresh_witness :
  Page.analysis
    (Page.handleImageAnalysis Failed
       (Page.handleImageChange (Some "data:image/png;base64,BBBB")
          (page_of (State (JArr []) [with_tags ["red"]] "data:image/png;base64,AAAA"
                      (JArr [JStr "red"], JArr []) false "" ""))))
  = analyse Failed (State (JArr []) [] "data:image/png;base64,BBBB" (JArr [], JArr [])
                      false "" "").
Proof.
  apply (proj2 (proj2 (proj2 (proj2
           (new_image_starts_afresh (Some "data:image/png;base64,BBBB") Failed
              (page_of (State (JArr []) [with_tags ["red"]] "data:image/png;base64,AAAA"
                          (JArr [JStr "red"], JArr []) false "" "")))))));
    reflexivity.
Defined.

(** X21. Toggling the form flips its visibility and clears the error;
    toggling twice brings the visibility back and changes nothing but the
    error. *)
Theorem toggle_twice (pg : Page.page) :
  Page.showAddProductForm (Page.toggleAddProductForm pg)
  = negb (Page.showAddProductForm pg)
  ∧ Page.toggleAddProductForm (Page.toggleAddProductForm pg) = Page.setError "" pg.
Proof.
  split; [reflexivity|]. destruct pg as [st f s n b]. unfold Page.toggleAddProductForm.
  cbn. rewrite negb_involutive. reflexivity.
Qed.

(** X22. What is typed into an input is what the form then holds for it;
    the other four inputs and the analysis state are left alone. *)
Theorem input_change_is_local (target other : Page.input) (value : string)
    (pg : Page.page) :
  read target (Page.newProduct (Page.handleInputChange target value pg)) = value
  ∧ (other ≠ target →
     read other (Page.newProduct (Page.handleInputChange target value pg))
     = read other (Page.newProduct pg))
  ∧ Page.analysis (Page.handleInputChange target value pg) = Page.analysis pg.
Proof.
  split; [destruct target; reflexivity|]. split; [|reflexivity].
  intros Hne. destruct target, other; try reflexivity; contradiction.
Qed.

Lemma input_change_is_local_witness :
  read Page.name
    (Page.newProduct (Page.handleInputChange Page.mainColors "red, blue"
                        (page_of (ready []))))
  = read Page.name (Page.newProduct (page_of (ready []))).
Proof.
  apply (proj1 (proj2 (input_change_is_local Page.mainColors Page.name "red, blue"
                         (page_of (ready []))))).
  discriminate.
Defined.

(** X23. The data sent to the model is the piece of the data URL after its
    first comma: for a header and a payload without commas it is the payload,
    and for a URL without any comma there is none. *)
Theorem inline_data_of_url (header payload : string) :
  contains "," header = false →
  (contains "," payload = false →
   inline_data (header +:+ String "," payload) = Some payload)
  ∧ inline_data header = None.
Proof.
  intros Hh. unfold inline_data. split.
  - intros Hp. rewrite (split_append _ _ _ Hh), (split_without _ _ Hp). reflexivity.
  - rewrite (split_without _ _ Hh). reflexivity.
Qed.

Lemma inline_data_of_url_witness :
  inline_data ("data:image/png;base64" +:+ String "," "iVBORw0KGgo=") = Some "iVBORw0KGgo=".
Proof.
  apply (proj1 (inline_data_of_url "data:image/png;base64" "iVBORw0KGgo=" eq_refl)).
  reflexivity.
Defined.
